(** * django-bibletext: reference resolution and verse navigation

    A shallow embedding of [bibletext/models/bibles.py]: the manager
    [BiblePassageManager] ([verse], [passage]), the model [VerseText]
    ([register_version], [next_verse], [prev_verse], the book navigation)
    and the properties of the reference resolver that follow from them.

    Python exceptions are values of [exn]; a call that may raise returns a
    [result].  A database table is the list of its rows; the external
    [bible] module (python-bible) is a record of functions the development
    is parametrised by. *)

From Stdlib Require Import ZArith List String Ascii Bool Lia Arith.
From Stdlib Require Import Permutation Sorting.Sorted.
Import ListNotations.

Local Open Scope string_scope.
Local Open Scope Z_scope.

(** ** Exceptions and results *)

(** The exceptions the code can raise.  [InvalidReference] stands for
    whatever the [bible] module raises on a reference it rejects;
    [DoesNotExist] and [MultipleObjectsReturned] are the two failures of a
    Django [get]; [IndexError] is Python's failure of [s[i]];
    [ValueError] is what the builtin [len] raises when [__len__] answers a
    negative number. *)
Inductive exn : Type :=
| IndexError
| ValueError
| InvalidReference
| DoesNotExist
| MultipleObjectsReturned.

Inductive result (A : Type) : Type :=
| Ok (a : A)
| Raise (e : exn).

Arguments Ok {A} a.
Arguments Raise {A} e.

Definition bind {A B : Type} (m : result A) (k : A -> result B) : result B :=
  match m with
  | Ok a => k a
  | Raise e => Raise e
  end.

Notation "x <- m ;; k" := (bind m (fun x => k))
  (at level 61, m at next level, right associativity).

(** ** Python strings *)

Module Py.

(** Truth value of [s] for a value that is [None] or a string: [None] and
    the empty string are false. *)
Definition truthy (s : option string) : bool :=
  match s with
  | Some (String _ _) => true
  | _ => false
  end.

(** [s[-k]] for [k >= 1]: the [k]-th character from the end, as a string
    of length one; [IndexError] when [s] has fewer than [k] characters. *)
Definition index_from_end (s : string) (k : nat) : result string :=
  if (String.length s <? k)%nat then Raise IndexError
  else match String.get (String.length s - k) s with
       | Some c => Ok (String c EmptyString)
       | None => Raise IndexError
       end.

(** The builtin [len] applied to an object whose [__len__] answers [n]. *)
Definition len (n : Z) : result nat :=
  if n <? 0 then Raise ValueError else Ok (Z.to_nat n).

End Py.

(** ** The translation qualifier

    The statement
    [if self.model.translation and reference[-3] != self.model.translation:
         reference += ' ' + self.model.translation]
    occurs three times in the manager (once in [verse], twice in
    [passage]); [qualify] is that statement, returning the new value of
    [reference]. *)
Definition qualify (translation : option string) (reference : string)
  : result string :=
  match translation with
  | Some t =>
      if Py.truthy translation then
        c <- Py.index_from_end reference 3 ;;
        if negb (String.eqb c t) then Ok (reference ++ " " ++ t)
        else Ok reference
      else Ok reference
  | None => Ok reference
  end.

(** Whether [qualify] appended the code. *)
Definition appended (translation : option string) (reference : string)
  : result bool :=
  r <- qualify translation reference ;;
  Ok (negb (String.eqb r reference)).

(** *** The detection the specification words

    The specification describes the detection as: the last non-space word
    token of the text does not match the translation code.  The two
    definitions below follow those words, to be compared with [qualify]. *)

Definition is_space (c : ascii) : bool := Ascii.eqb c " "%char.

(** Split at spaces, dropping empty tokens. *)
Fixpoint tokens_aux (cur : string) (s : string) : list string :=
  match s with
  | EmptyString =>
      match cur with EmptyString => [] | _ => [cur] end
  | String c rest =>
      if is_space c then
        match cur with
        | EmptyString => tokens_aux EmptyString rest
        | _ => cur :: tokens_aux EmptyString rest
        end
      else tokens_aux (cur ++ String c EmptyString) rest
  end.

Definition tokens (s : string) : list string := tokens_aux EmptyString s.

Definition last_word_token (s : string) : option string :=
  last (map Some (tokens s)) None.

(** The text carries the qualifier when its last word token is the code. *)
Definition carries_qualifier (t : string) (reference : string) : bool :=
  match last_word_token reference with
  | Some w => String.eqb w t
  | None => false
  end.

(** ** The external [bible] module

    [bible.Verse(reference)] parses a reference and exposes [book],
    [chapter] and [verse]; [bible.Passage(start, end)] builds a passage
    whose [__len__] is the number of verses it spans.  Both raise on a
    reference they reject.  The module is not part of this repository: the
    code is verified for every implementation of this interface. *)
Record BibleModule : Type := {
  (** [Some (book, chapter, verse)], or [None] when the constructor raises *)
  Verse : string -> option (Z * Z * Z);
  (** [Some n] where [n] is what [__len__] answers, or [None] when the
      constructor raises *)
  Passage : string -> string -> option Z
}.

Definition parsed {A : Type} (o : option A) : result A :=
  match o with
  | Some a => Ok a
  | None => Raise InvalidReference
  end.

(** ** Rows and model instances *)

(** A row of a translation's table: the columns of [VerseText].  [id] is
    the primary key ([pk]); the column [verse] is [verse_no] here, [verse]
    being the manager's method. *)
Record Row : Type := {
  id : Z;
  book_id : Z;
  chapter : Z;
  verse_no : Z;
  text : string
}.

(** The three columns of [unique_together]. *)
Definition triple (r : Row) : Z * Z * Z := (book_id r, chapter r, verse_no r).

(** An instance of the model: its row and the two attributes
    [_next_verse] and [_prev_verse], absent ([None]) until the property is
    first read; when present they hold a verse or Python's [None]. *)
#[local] Set Warnings "-register-all".
Inductive VerseText : Type :=
  MkVerseText {
    fields : Row;
    _next_verse : option (option VerseText);
    _prev_verse : option (option VerseText)
  }.

Definition pk (v : VerseText) : Z := id (fields v).

(** An instance as the query set builds it from a row: no attribute set. *)
Definition load (r : Row) : VerseText :=
  {| fields := r; _next_verse := None; _prev_verse := None |}.

(** Equality of model instances in Django: same primary key. *)
Definition model_eqb (a b : VerseText) : bool := pk a =? pk b.

(** The ordinals [a], [a+1], ..., [a+n-1]. *)
Definition ordinals (a n : nat) : list Z := map Z.of_nat (seq a n).

(** ** Query sets *)

Module QuerySet.

Definition t : Type := list Row.

Fixpoint insert_by_id (r : Row) (l : t) : t :=
  match l with
  | [] => [r]
  | x :: l' => if id r <=? id x then r :: l else x :: insert_by_id r l'
  end.

(** Ascending primary keys. *)
Definition id_le (a b : Row) : Prop := id a <= id b.

(** [order_by('id')] *)
Definition order_by_id (l : t) : t := fold_right insert_by_id [] l.

(** [filter(pk__gte = k)] *)
Definition filter_pk_gte (k : Z) (l : t) : t :=
  filter (fun r => k <=? id r) l.

(** [qs[:n]] for [n >= 0] *)
Definition slice_to (n : nat) (l : t) : t := firstn n l.

(** [get(...)]: the one row that satisfies the lookup. *)
Definition get (p : Row -> bool) (l : t) : result VerseText :=
  match filter p l with
  | [] => Raise DoesNotExist
  | [r] => Ok (load r)
  | _ :: _ :: _ => Raise MultipleObjectsReturned
  end.

(** The query set evaluated: one instance per row. *)
Definition evaluate (l : t) : list VerseText := map load l.

End QuerySet.

(** ** [BiblePassageManager] and [VerseText] over one translation *)

Section Translation.

Variable bible : BibleModule.
(** [self.model.translation]: the class attribute, [None] by default. *)
Variable translation : option string.
(** The rows of the translation's table, in no particular order. *)
Variable table : QuerySet.t.

(** [BiblePassageManager.verse] *)
Definition verse (reference : string) : result VerseText :=
  reference <- qualify translation reference ;;
  v <- parsed (Verse bible reference) ;;
  let '(b, c, n) := v in
  QuerySet.get
    (fun r => (book_id r =? b) && (chapter r =? c) && (verse_no r =? n))
    table.

(** ['Genesis 1:1'], with the translation code when there is one. *)
Definition in_the_beginning : string :=
  match translation with
  | Some t => if Py.truthy translation then "Genesis 1:1" ++ " " ++ t
              else "Genesis 1:1"
  | None => "Genesis 1:1"
  end.

(** [if not end_reference: end_reference = start_reference], where
    [end_reference] is [None] when the argument is left out. *)
Definition default_end (start_reference : string)
  (end_reference : option string) : string :=
  match end_reference with
  | Some e => if Py.truthy end_reference then e else start_reference
  | None => start_reference
  end.

(** [BiblePassageManager.passage].  The method returns the sliced query
    set; the result here is that query set evaluated, which is what a
    caller gets when it iterates over it. *)
Definition passage (start_reference : string) (end_reference : option string)
  : result (list VerseText) :=
  let end_reference := default_end start_reference end_reference in
  start_reference <- qualify translation start_reference ;;
  end_reference <- qualify translation end_reference ;;
  psg <- parsed (Passage bible start_reference end_reference) ;;
  origin <- parsed (Passage bible in_the_beginning start_reference) ;;
  start_pk <- Py.len origin ;;
  n <- Py.len psg ;;
  Ok (QuerySet.evaluate
        (QuerySet.slice_to n
           (QuerySet.filter_pk_gte (Z.of_nat start_pk)
              (QuerySet.order_by_id table)))).

(** The rows [passage] selects once both references are qualified and the
    parser has answered [origin] verses from Genesis 1:1 to the start and
    [span] verses in the passage. *)
Definition selected (origin span : Z) : QuerySet.t :=
  QuerySet.slice_to (Z.to_nat span)
    (QuerySet.filter_pk_gte (Z.of_nat (Z.to_nat origin))
       (QuerySet.order_by_id table)).

(** [VerseText.next_verse]: the value of the property and the instance
    after the call (the attribute [_next_verse] may have been set). *)
Definition next_verse (self : VerseText)
  : result (option VerseText) * VerseText :=
  match _next_verse self with
  | Some cached => (Ok cached, self)
  | None =>
      match QuerySet.get (fun r => id r =? pk self + 1) table with
      | Ok v =>
          (Ok (Some v),
           {| fields := fields self; _next_verse := Some (Some v);
              _prev_verse := _prev_verse self |})
      | Raise DoesNotExist =>
          (Ok None,
           {| fields := fields self; _next_verse := Some None;
              _prev_verse := _prev_verse self |})
      | Raise e => (Raise e, self)
      end
  end.

(** [VerseText.prev_verse] *)
Definition prev_verse (self : VerseText)
  : result (option VerseText) * VerseText :=
  match _prev_verse self with
  | Some cached => (Ok cached, self)
  | None =>
      if (book_id (fields self) =? 1) && (chapter (fields self) =? 1)
         && (verse_no (fields self) =? 1)
      then
        (Ok None,
         {| fields := fields self; _next_verse := _next_verse self;
            _prev_verse := Some None |})
      else
        match QuerySet.get (fun r => id r =? pk self - 1) table with
        | Ok v =>
            (Ok (Some v),
             {| fields := fields self; _next_verse := _next_verse self;
                _prev_verse := Some (Some v) |})
        | Raise e => (Raise e, self)
        end
  end.

(** [VerseText.next_book_pk] and [VerseText.prev_book_pk] *)
Definition next_book_pk (self : VerseText) : option Z :=
  let next_book_pk := book_id (fields self) + 1 in
  if next_book_pk <=? 66 then Some next_book_pk else None.

Definition prev_book_pk (self : VerseText) : option Z :=
  let prev_book_pk := book_id (fields self) - 1 in
  if 0 <? prev_book_pk then Some prev_book_pk else None.

(** *** The invariants of a fully populated table *)

(** The primary keys are 1, 2, ..., N, each once. *)
Definition contiguous_from_one : Prop :=
  Permutation (map id table) (ordinals 1 (List.length table)).

(** [unique_together = [('book', 'chapter', 'verse')]] *)
Definition unique_together : Prop :=
  NoDup (map triple table).

(** Genesis 1:1 is stored under the primary key 1. *)
Definition genesis_first : Prop :=
  exists r, In r table /\ id r = 1 /\ triple r = (1, 1, 1).

Definition fully_populated : Prop :=
  contiguous_from_one /\ unique_together /\ genesis_first.

End Translation.

(** ** The registry of versions *)

Section Registry.

(** The model classes passed to [register_version]. *)
Variable Model : Type.
(** [ContentType.objects.get_for_model(version).pk] *)
Variable get_for_model : Model -> Z.

(** The class attribute [cls.versions]: [None] while the class has no such
    attribute. *)
Definition versions_attr : Type := option (list Z).

Definition entries (a : versions_attr) : list Z :=
  match a with
  | Some l => l
  | None => []
  end.

(** [pk in cls.versions] *)
Definition mem (k : Z) (l : list Z) : bool := existsb (Z.eqb k) l.

(** The body of the loop: [if pk not in cls.versions: cls.versions.append(pk)] *)
Definition register_one (l : list Z) (version : Model) : list Z :=
  let version_content_type_pk := get_for_model version in
  if negb (mem version_content_type_pk l) then l ++ [version_content_type_pk]
  else l.

(** [VerseText.register_version], called with the list [versions], on the
    attribute. *)
Definition register_version (cls : versions_attr) (versions : list Model)
  : versions_attr :=
  let cls_versions := match cls with Some l => l | None => [] end in
  Some (fold_left register_one versions cls_versions).

(** A sequence of calls, each with its arguments, from the state in which
    the class has no [versions] attribute yet. *)
Definition run_calls (calls : list (list Model)) : versions_attr :=
  fold_left register_version calls None.

End Registry.

(** ** A small instance

    A [bible] module that knows the first six verses of Genesis in the KJV,
    and two tables: one with all six, in shuffled order, and one that stops
    after the fourth.  A third table holds the opening of a translation of
    the New Testament alone. *)
Module Sample.

Definition known : list (string * (Z * (Z * Z * Z))) :=
  [ ("Genesis 1:1 KJV", (1, (1, 1, 1)));
    ("Genesis 1:2 KJV", (2, (1, 1, 2)));
    ("Genesis 1:3 KJV", (3, (1, 1, 3)));
    ("Genesis 1:4 KJV", (4, (1, 1, 4)));
    ("Genesis 1:5 KJV", (5, (1, 1, 5)));
    ("Genesis 1:6 KJV", (6, (1, 1, 6))) ].

Fixpoint lookup (s : string) (l : list (string * (Z * (Z * Z * Z))))
  : option (Z * (Z * Z * Z)) :=
  match l with
  | [] => None
  | (k, v) :: l' => if String.eqb s k then Some v else lookup s l'
  end.

Definition bible : BibleModule := {|
  Verse := fun s => option_map snd (lookup s known);
  Passage := fun a b =>
    match lookup a known, lookup b known with
    | Some (i, _), Some (j, _) => Some (j - i + 1)
    | _, _ => None
    end
|}.

Definition row (i b c n : Z) (t : string) : Row :=
  {| id := i; book_id := b; chapter := c; verse_no := n; text := t |}.

Definition g1 := row 1 1 1 1 "In the beginning God created the heaven and the earth.".
Definition g2 := row 2 1 1 2 "And the earth was without form, and void".
Definition g3 := row 3 1 1 3 "And God said, Let there be light: and there was light.".
Definition g4 := row 4 1 1 4 "And God saw the light, that it was good".
Definition g5 := row 5 1 1 5 "And God called the light Day".
Definition g6 := row 6 1 1 6 "And God said, Let there be a firmament".

Definition kjv : QuerySet.t := [g4; g1; g6; g3; g2; g5].
Definition kjv_short : QuerySet.t := [g3; g1; g4; g2].

(** Matthew is book 40; the table of a New Testament starts with it. *)
Definition m1 := row 1 40 1 1 "The book of the generation of Jesus Christ".
Definition m2 := row 2 40 1 2 "Abraham begat Isaac".
Definition new_testament : QuerySet.t := [m1; m2].

(** Model classes named by their code, the content type of a class being
    numbered by the length of the code; and a sequence of calls that
    registers the KJV three times. *)
Definition content_type (code : string) : Z := Z.of_nat (String.length code).
Definition calls : list (list string) := [["KJV"; "KJV"]; ["NKJV"]; ["KJV"]].

End Sample.

(** ** Books and the navigation between books *)

Module Books.

(** A row of [bibletext_books]: the columns of [BookBase], with the primary
    key [id]. *)
Record Book : Type := {
  id : Z;
  name : string;
  testament : string;
  abbr : string;
  altname : string
}.

(** [BookBase.__unicode__] *)
Definition unicode (b : Book) : string := name b.

(** [objects.get(pk=k)] on the table of books. *)
Definition get (k : Z) (l : list Book) : result Book :=
  match filter (fun b => id b =? k) l with
  | [] => Raise DoesNotExist
  | [b] => Ok b
  | _ :: _ :: _ => Raise MultipleObjectsReturned
  end.

End Books.

(** Truth value of a property that is [None] or an integer: [None] and 0
    are false. *)
Definition int_truthy (k : option Z) : bool :=
  match k with
  | Some z => negb (z =? 0)
  | None => false
  end.

(** [VerseText.next_book]: [self.books.objects.get(pk=self.next_book_pk)]
    when [self.next_book_pk] is true, [None] otherwise. *)
Definition next_book (books : list Books.Book) (self : VerseText)
  : result (option Books.Book) :=
  match next_book_pk self with
  | Some k =>
      if int_truthy (next_book_pk self) then
        b <- Books.get k books ;; Ok (Some b)
      else Ok None
  | None => Ok None
  end.

(** [VerseText.prev_book] *)
Definition prev_book (books : list Books.Book) (self : VerseText)
  : result (option Books.Book) :=
  match prev_book_pk self with
  | Some k =>
      if int_truthy (prev_book_pk self) then
        b <- Books.get k books ;; Ok (Some b)
      else Ok None
  | None => Ok None
  end.

(** ** The arguments of the permalinks *)

(** A value of the keyword dictionary: the translation code ([None] or a
    string) or an integer. *)
Inductive UrlValue : Type :=
| UrlCode (code : option string)
| UrlInt (z : Z).

(** What the body of a permalink method returns, before the decorator
    resolves it: the name of the view, the positional arguments (always
    empty here) and the keyword arguments, key by key. *)
Definition Permalink : Type := string * list UrlValue * list (string * UrlValue).

(** [self.book]: the related book, fetched by [book_id]. *)
Definition book (books : list Books.Book) (self : VerseText)
  : result Books.Book :=
  Books.get (book_id (fields self)) books.

(** [VerseText.get_absolute_url] *)
Definition get_absolute_url (translation : option string)
  (books : list Books.Book) (self : VerseText) : result Permalink :=
  b <- book books self ;;
  Ok ("bibletext_verse_detail", [],
      [ ("version", UrlCode translation);
        ("book_id", UrlInt (Books.id b));
        ("chapter", UrlInt (chapter (fields self)));
        ("verse", UrlInt (verse_no (fields self))) ]).

(** [VerseText.get_chapter_url] *)
Definition get_chapter_url (translation : option string)
  (books : list Books.Book) (self : VerseText) : result Permalink :=
  b <- book books self ;;
  Ok ("bibletext_chapter_detail", [],
      [ ("version", UrlCode translation);
        ("book_id", UrlInt (Books.id b));
        ("chapter", UrlInt (chapter (fields self))) ]).

(** A second small instance: three books of the canon and verses of
    Exodus, Leviticus and Revelation. *)
Module Sample2.

Definition book (i : Z) (n t a : string) : Books.Book :=
  {| Books.id := i; Books.name := n; Books.testament := t;
     Books.abbr := a; Books.altname := "" |}.

Definition genesis := book 1 "Genesis" "OT" "Gen".
Definition exodus := book 2 "Exodus" "OT" "Exod".
Definition revelation := book 66 "Revelation" "NT" "Rev".
Definition books : list Books.Book := [exodus; revelation; genesis].

(** Exodus 1:1 and Revelation 22:21, with the primary keys they have in
    the KJV. *)
Definition e1 := Sample.row 1534 2 1 1 "Now these are the names of the children of Israel".
Definition r_last := Sample.row 31102 66 22 21 "The grace of our Lord Jesus Christ be with you all. Amen.".
(** A verse of Leviticus, whose book [books] does not store. *)
Definition l1 := Sample.row 2747 3 1 1 "And the LORD called unto Moses".

End Sample2.

(** * Properties *)

(** ** Ordered query sets *)

Module QuerySetFacts.
Import QuerySet.

Lemma insert_by_id_perm (r : Row) (l : t) :
  Permutation (insert_by_id r l) (r :: l).
Proof.
  induction l as [|x l IH]; simpl.
  - apply Permutation_refl.
  - destruct (id r <=? id x).
    + apply Permutation_refl.
    + eapply perm_trans; [apply perm_skip, IH | apply perm_swap].
Qed.

Lemma order_by_id_perm (l : t) : Permutation (order_by_id l) l.
Proof.
  induction l as [|x l IH]; simpl.
  - constructor.
  - eapply perm_trans; [apply insert_by_id_perm | apply perm_skip, IH].
Qed.

Lemma insert_by_id_sorted (r : Row) (l : t) :
  StronglySorted id_le l -> StronglySorted id_le (insert_by_id r l).
Proof.
  induction 1 as [|x l Hs IH Hx]; simpl.
  - repeat constructor.
  - destruct (id r <=? id x) eqn:E.
    + apply Z.leb_le in E. constructor.
      * constructor; assumption.
      * constructor; [exact E|].
        eapply Forall_impl; [|exact Hx].
        intros y Hy. unfold id_le in *. lia.
    + apply Z.leb_gt in E. constructor; [exact IH|].
      eapply Permutation_Forall.
      * apply Permutation_sym, insert_by_id_perm.
      * constructor; [unfold id_le; lia | exact Hx].
Qed.

Lemma order_by_id_sorted (l : t) : StronglySorted id_le (order_by_id l).
Proof.
  induction l as [|x l IH]; simpl.
  - constructor.
  - apply insert_by_id_sorted, IH.
Qed.

Lemma sorted_ids (l : t) :
  StronglySorted id_le l -> StronglySorted Z.le (map id l).
Proof.
  induction 1 as [|x l Hs IH Hx]; simpl; constructor.
  - exact IH.
  - apply Forall_map. exact Hx.
Qed.

(** A list of integers has one ascending arrangement. *)
Lemma ascending_unique (l1 : list Z) :
  forall l2, StronglySorted Z.le l1 -> StronglySorted Z.le l2 ->
             Permutation l1 l2 -> l1 = l2.
Proof.
  induction l1 as [|a l1 IH]; intros l2 H1 H2 HP.
  - apply Permutation_nil in HP. now subst.
  - destruct l2 as [|b l2].
    + apply Permutation_sym, Permutation_nil in HP. discriminate.
    + apply StronglySorted_inv in H1 as [H1 Ha].
      apply StronglySorted_inv in H2 as [H2 Hb].
      assert (a = b) as ->.
      { assert (In a (b :: l2)) as Ia
          by (eapply Permutation_in; [exact HP | now left]).
        assert (In b (a :: l1)) as Ib
          by (eapply Permutation_in;
              [apply Permutation_sym; exact HP | now left]).
        destruct Ia as [->|Ia]; [reflexivity|].
        destruct Ib as [->|Ib]; [reflexivity|].
        rewrite Forall_forall in Ha, Hb.
        specialize (Ha _ Ib). specialize (Hb _ Ia). lia. }
      f_equal. apply IH; try assumption.
      eapply Permutation_cons_inv; exact HP.
Qed.

Lemma ordinals_ascending (n : nat) :
  forall a, StronglySorted Z.le (ordinals a n).
Proof.
  unfold ordinals.
  induction n as [|n IH]; intros a; simpl; constructor.
  - apply IH.
  - apply Forall_forall. intros z Hz.
    apply in_map_iff in Hz as (k & <- & Hk).
    apply in_seq in Hk. lia.
Qed.

Lemma ordinals_length (a n : nat) : List.length (ordinals a n) = n.
Proof. unfold ordinals. now rewrite length_map, length_seq. Qed.

Lemma in_ordinals (a n : nat) (z : Z) :
  In z (ordinals a n) <-> Z.of_nat a <= z < Z.of_nat a + Z.of_nat n.
Proof.
  unfold ordinals. rewrite in_map_iff. split.
  - intros (k & <- & Hk). apply in_seq in Hk. lia.
  - intros Hz. exists (Z.to_nat z). split; [lia|]. apply in_seq. lia.
Qed.

Lemma ordinals_NoDup (a n : nat) : NoDup (ordinals a n).
Proof.
  unfold ordinals. apply Finite.Injective_map_NoDup.
  - intros x y. apply Nat2Z.inj.
  - apply seq_NoDup.
Qed.

(** Keeping the ordinals from [k] on drops the ones before [k]. *)
Lemma filter_ordinals_gte (n : nat) :
  forall a k, (a <= k)%nat ->
    filter (fun z => Z.of_nat k <=? z) (ordinals a n)
    = ordinals k (n - (k - a)).
Proof.
  unfold ordinals.
  induction n as [|n IH]; intros a k Hk.
  - reflexivity.
  - cbn [seq map filter].
    destruct (Z.of_nat k <=? Z.of_nat a) eqn:E.
    + apply Z.leb_le in E. assert (k = a) as -> by lia.
      replace (S n - (a - a))%nat with (S n) by lia.
      cbn [seq map]. f_equal.
      specialize (IH (S a) (S a) (le_n _)).
      replace (n - (S a - S a))%nat with n in IH by lia.
      rewrite <- IH at 2.
      apply filter_ext_in. intros z Hz.
      apply in_map_iff in Hz as (j & <- & Hj). apply in_seq in Hj.
      transitivity true; [|symmetry]; apply Z.leb_le; lia.
    + apply Z.leb_gt in E. rewrite (IH (S a) k) by lia.
      replace (S n - (k - a))%nat with (n - (k - S a))%nat by lia.
      reflexivity.
Qed.

Lemma firstn_ordinals (m a n : nat) :
  firstn m (ordinals a n) = ordinals a (Nat.min m n).
Proof.
  unfold ordinals. rewrite firstn_map. f_equal.
  revert a n. induction m as [|m IH]; intros a [|n]; simpl; try reflexivity.
  now rewrite IH.
Qed.

Lemma map_filter_id (p : Z -> bool) (l : t) :
  map id (filter (fun r => p (id r)) l) = filter p (map id l).
Proof.
  induction l as [|x l IH]; simpl; [reflexivity|].
  destruct (p (id x)); simpl; now rewrite IH.
Qed.

(** In id order, a table with the keys 1..N reads 1, 2, ..., N. *)
Lemma order_by_id_ordinals (table : t) :
  contiguous_from_one table ->
  map id (order_by_id table) = ordinals 1 (List.length table).
Proof.
  intros H. apply ascending_unique.
  - apply sorted_ids, order_by_id_sorted.
  - apply ordinals_ascending.
  - eapply perm_trans; [|exact H].
    apply Permutation_map, order_by_id_perm.
Qed.

(** The range scan of [passage] over such a table. *)
Lemma range_scan_ids (table : t) (start_pk n : nat) :
  contiguous_from_one table -> (1 <= start_pk)%nat ->
  map id (slice_to n (filter_pk_gte (Z.of_nat start_pk) (order_by_id table)))
  = ordinals start_pk
      (Nat.min n (List.length table - (start_pk - 1))).
Proof.
  intros H Hs. unfold slice_to, filter_pk_gte.
  rewrite <- firstn_map.
  rewrite (map_filter_id (fun z => Z.of_nat start_pk <=? z)).
  rewrite (order_by_id_ordinals _ H).
  rewrite filter_ordinals_gte by exact Hs.
  apply firstn_ordinals.
Qed.

Lemma in_slice_to (n : nat) (l : t) (r : Row) :
  In r (slice_to n l) -> In r l.
Proof.
  unfold slice_to. revert l.
  induction n as [|n IH]; intros [|x l]; simpl; try tauto.
  intros [->|H]; [now left | right; now apply IH].
Qed.

Lemma range_scan_rows (table : t) (k : Z) (n : nat) (r : Row) :
  In r (slice_to n (filter_pk_gte k (order_by_id table))) -> In r table.
Proof.
  intros H. apply in_slice_to in H. unfold filter_pk_gte in H.
  apply filter_In in H as [H _].
  eapply Permutation_in; [apply order_by_id_perm | exact H].
Qed.

End QuerySetFacts.

(** ** Lookups by a unique key *)

Module GetFacts.
Import QuerySet.

Lemma filter_none (p : Row -> bool) (l : t) :
  (forall x, In x l -> p x = false) -> filter p l = [].
Proof.
  induction l as [|a l IH]; simpl; intros H; [reflexivity|].
  rewrite (H a) by now left. apply IH. intros x Hx. apply H. now right.
Qed.

Section Key.

Variable K : Type.
Variable key : Row -> K.

Lemma key_inj (l : t) (x y : Row) :
  NoDup (map key l) -> In x l -> In y l -> key x = key y -> x = y.
Proof.
  induction l as [|a l IH]; simpl; intros Hnd Hx Hy E; [contradiction|].
  inversion Hnd as [|? ? Hnotin Hnd']; subst.
  destruct Hx as [->|Hx], Hy as [->|Hy]; try reflexivity.
  - exfalso. apply Hnotin. rewrite E. now apply in_map.
  - exfalso. apply Hnotin. rewrite <- E. now apply in_map.
  - now apply IH.
Qed.

(** A lookup that selects the rows with the key of [r] finds [r] alone. *)
Lemma filter_key (p : Row -> bool) (l : t) (r : Row) :
  NoDup (map key l) -> In r l ->
  (forall x, In x l -> p x = true <-> key x = key r) ->
  filter p l = [r].
Proof.
  induction l as [|a l IH]; simpl; intros Hnd Hr Hp; [contradiction|].
  inversion Hnd as [|? ? Hnotin Hnd']; subst.
  assert (Hrest : forall x, In x l -> p x = true <-> key x = key r)
    by (intros x Hx; apply Hp; now right).
  destruct Hr as [->|Hr].
  - assert (p r = true) as -> by (apply Hp; [now left | reflexivity]).
    f_equal. apply filter_none. intros x Hx.
    destruct (p x) eqn:E; [|reflexivity].
    exfalso. apply Hnotin.
    assert (key x = key r) as <- by (apply Hrest; assumption).
    now apply in_map.
  - destruct (p a) eqn:E.
    + exfalso. apply Hnotin.
      assert (key a = key r) as -> by (apply Hp; [now left | exact E]).
      now apply in_map.
    + now apply IH.
Qed.

Lemma get_key (p : Row -> bool) (l : t) (r : Row) :
  NoDup (map key l) -> In r l ->
  (forall x, In x l -> p x = true <-> key x = key r) ->
  get p l = Ok (load r).
Proof.
  intros Hnd Hr Hp. unfold get. now rewrite (filter_key p l r).
Qed.

End Key.

Lemma get_missing (p : Row -> bool) (l : t) :
  (forall x, In x l -> p x = false) -> get p l = Raise DoesNotExist.
Proof.
  intros H. unfold get. now rewrite filter_none.
Qed.

Lemma contiguous_NoDup (table : t) :
  contiguous_from_one table -> NoDup (map id table).
Proof.
  intros H. eapply Permutation_NoDup.
  - apply Permutation_sym, H.
  - apply QuerySetFacts.ordinals_NoDup.
Qed.

Lemma contiguous_ids (table : t) (k : Z) :
  contiguous_from_one table ->
  (exists r, In r table /\ id r = k) <-> 1 <= k <= Z.of_nat (List.length table).
Proof.
  intros H. split.
  - intros (r & Hr & <-).
    assert (In (id r) (ordinals 1 (List.length table))) as Hin
      by (eapply Permutation_in; [exact H | now apply in_map]).
    apply QuerySetFacts.in_ordinals in Hin. lia.
  - intros Hk.
    assert (In k (map id table)) as Hin.
    { eapply Permutation_in; [apply Permutation_sym, H|].
      apply QuerySetFacts.in_ordinals. lia. }
    apply in_map_iff in Hin as (r & E & Hr). now exists r.
Qed.

(** The check of contiguity by evaluation. *)
Lemma contiguous_by_order (table : t) :
  map id (order_by_id table) = ordinals 1 (List.length table) ->
  contiguous_from_one table.
Proof.
  intros E. unfold contiguous_from_one. rewrite <- E.
  apply Permutation_map, Permutation_sym, QuerySetFacts.order_by_id_perm.
Qed.

Lemma get_by_id (table : t) (r : Row) (k : Z) :
  contiguous_from_one table -> In r table -> id r = k ->
  get (fun x => id x =? k) table = Ok (load r).
Proof.
  intros H Hr <-. apply (get_key Z id).
  - now apply contiguous_NoDup.
  - exact Hr.
  - intros x _. apply Z.eqb_eq.
Qed.

Lemma get_by_triple (table : t) (r : Row) (b c n : Z) :
  unique_together table -> In r table -> triple r = (b, c, n) ->
  get (fun x => (book_id x =? b) && (chapter x =? c) && (verse_no x =? n))
      table
  = Ok (load r).
Proof.
  intros H Hr E. apply (get_key _ triple).
  - exact H.
  - exact Hr.
  - intros x _. rewrite E. unfold triple.
    rewrite !andb_true_iff, !Z.eqb_eq. split.
    + intros [[-> ->] ->]. reflexivity.
    + intros [= -> -> ->]. auto.
Qed.

End GetFacts.

(** ** The translation qualifier *)

Module QualifyFacts.

Lemma get_in_range (s : string) :
  forall n, (n < String.length s)%nat -> exists c, String.get n s = Some c.
Proof.
  induction s as [|a s IH]; simpl; intros n Hn; [lia|].
  destruct n as [|n]; [now exists a|]. apply IH. lia.
Qed.

Lemma index_from_end_short (s : string) (k : nat) :
  (String.length s < k)%nat -> Py.index_from_end s k = Raise IndexError.
Proof.
  intros H. unfold Py.index_from_end.
  now apply Nat.ltb_lt in H as ->.
Qed.

Lemma index_from_end_long (s : string) (k : nat) :
  (1 <= k <= String.length s)%nat ->
  exists c, Py.index_from_end s k = Ok (String c EmptyString).
Proof.
  intros H. unfold Py.index_from_end.
  assert ((String.length s <? k)%nat = false) as -> by (apply Nat.ltb_ge; lia).
  destruct (get_in_range s (String.length s - k)) as [c ->]; [lia|].
  now exists c.
Qed.

(** Without a translation code the reference is left alone. *)
Lemma qualify_unset (translation : option string) (reference : string) :
  Py.truthy translation = false -> qualify translation reference = Ok reference.
Proof.
  intros H. unfold qualify. destruct translation as [t|]; [|reflexivity].
  now rewrite H.
Qed.

(** With a code, a reference of fewer than three characters cannot be
    indexed at [-3]. *)
Lemma qualify_short (translation : option string) (reference : string) :
  Py.truthy translation = true -> (String.length reference < 3)%nat ->
  qualify translation reference = Raise IndexError.
Proof.
  intros Ht Hlen. unfold qualify. destruct translation as [t|]; [|discriminate].
  rewrite Ht. now rewrite index_from_end_short.
Qed.

(** A reference of three characters or more always passes. *)
Lemma qualify_long (translation : option string) (reference : string) :
  (3 <= String.length reference)%nat ->
  exists q, qualify translation reference = Ok q.
Proof.
  intros Hlen. unfold qualify. destruct translation as [t|]; [|now eexists].
  destruct (Py.truthy (Some t)); [|now eexists].
  destruct (index_from_end_long reference 3) as [c ->]; [lia|]. simpl.
  destruct (negb _); now eexists.
Qed.

(** One character never equals a code that is not one character long: for
    such a code the comparison [reference[-3] != translation] always
    holds and the code is appended whatever the reference ends with. *)
Lemma qualify_always_appends (t reference : string) :
  String.length t <> 1%nat -> t <> EmptyString ->
  (3 <= String.length reference)%nat ->
  qualify (Some t) reference = Ok (reference ++ " " ++ t).
Proof.
  intros Ht Hne Hlen. unfold qualify.
  assert (Py.truthy (Some t) = true) as ->
    by (destruct t; [contradiction | reflexivity]).
  destruct (index_from_end_long reference 3) as [c ->]; [lia|]. cbn [bind].
  destruct (String.eqb_spec (String c EmptyString) t) as [<-|_];
    [simpl in Ht; lia | reflexivity].
Qed.

Lemma default_end_same (reference : string) :
  default_end reference (Some reference) = reference.
Proof. unfold default_end. now destruct (Py.truthy _). Qed.

Lemma default_end_given (start_reference e : string) :
  e <> EmptyString -> default_end start_reference (Some e) = e.
Proof. intros H. unfold default_end. destruct e; [contradiction | reflexivity]. Qed.

End QualifyFacts.

(** ** [BiblePassageManager.verse] *)

(** C2 (the code departs from the claim).  The claim: the code is appended
    if and only if the last word token of the text is not the translation
    code.  At the reference "John 3:16 KJV" of the KJV model the last word
    token is the code, and the manager appends the code all the same: the
    test compares the single character [reference[-3]] with the whole
    code.  The parser is then handed "John 3:16 KJV KJV", as if the model
    had no code and had been given that text. *)
Theorem qualify_appends_to_qualified_reference :
  carries_qualifier "KJV" "John 3:16 KJV" = true /\
  Py.index_from_end "John 3:16 KJV" 3 = Ok "K" /\
  qualify (Some "KJV") "John 3:16 KJV" = Ok "John 3:16 KJV KJV" /\
  appended (Some "KJV") "John 3:16 KJV" = Ok true /\
  forall bible table,
    verse bible (Some "KJV") table "John 3:16 KJV"
    = verse bible None table "John 3:16 KJV KJV".
Proof.
  repeat split; reflexivity.
Qed.

(** C9.  A reference that reaches the parser (as [q]) and that the parser
    reads as book [b], chapter [c], verse [n], when the table stores no row
    with these three columns, makes [verse] raise [DoesNotExist]: neither
    another exception nor a verse. *)
Theorem verse_not_stored (bible : BibleModule) (translation : option string)
  (table : QuerySet.t) (reference q : string) (b c n : Z) :
  qualify translation reference = Ok q ->
  Verse bible q = Some (b, c, n) ->
  (forall r, In r table -> triple r <> (b, c, n)) ->
  verse bible translation table reference = Raise DoesNotExist.
Proof.
  intros Hq Hv Hnone. unfold verse. rewrite Hq. simpl. rewrite Hv. simpl.
  apply GetFacts.get_missing. intros r Hr.
  specialize (Hnone r Hr). unfold triple in Hnone.
  destruct (book_id r =? b) eqn:Eb; [|reflexivity].
  destruct (chapter r =? c) eqn:Ec; [|reflexivity].
  destruct (verse_no r =? n) eqn:En; [|reflexivity].
  apply Z.eqb_eq in Eb, Ec, En. subst. now contradiction Hnone.
Qed.

Lemma verse_not_stored_witness :
  verse Sample.bible (Some "KJV") Sample.kjv_short "Genesis 1:5"
  = Raise DoesNotExist.
Proof.
  apply (verse_not_stored Sample.bible (Some "KJV") Sample.kjv_short
           "Genesis 1:5" "Genesis 1:5 KJV" 1 1 5).
  - reflexivity.
  - reflexivity.
  - intros r [<-|[<-|[<-|[<-|[]]]]]; discriminate.
Defined.

(** ** [BiblePassageManager.passage] *)

Section PassageFacts.

Variable bible : BibleModule.
Variable translation : option string.
Variable table : QuerySet.t.

Lemma passage_parsed (start_reference : string) (end_reference : option string)
  (s e : string) (origin span : Z) :
  qualify translation start_reference = Ok s ->
  qualify translation (default_end start_reference end_reference) = Ok e ->
  Passage bible s e = Some span ->
  Passage bible (in_the_beginning translation) s = Some origin ->
  passage bible translation table start_reference end_reference
  = if (origin <? 0) || (span <? 0) then Raise ValueError
    else Ok (QuerySet.evaluate (selected table origin span)).
Proof.
  intros Hs He Hspan Horigin. unfold passage.
  rewrite Hs. cbn [bind]. rewrite He. cbn [bind].
  rewrite Hspan. cbn [bind parsed]. rewrite Horigin. cbn [bind parsed].
  unfold Py.len.
  destruct (origin <? 0); [reflexivity|]. cbn [bind orb].
  destruct (span <? 0); reflexivity.
Qed.

Lemma evaluate_pk (rows : QuerySet.t) :
  map pk (QuerySet.evaluate rows) = map id rows.
Proof. unfold QuerySet.evaluate. rewrite map_map. reflexivity. Qed.

Lemma selected_ids (origin span : Z) :
  contiguous_from_one table -> 1 <= origin ->
  map id (selected table origin span)
  = ordinals (Z.to_nat origin)
      (Nat.min (Z.to_nat span)
               (List.length table - (Z.to_nat origin - 1))).
Proof.
  intros H Ho. unfold selected.
  apply QuerySetFacts.range_scan_ids; [exact H | lia].
Qed.

Lemma selected_in_table (origin span : Z) (r : Row) :
  In r (selected table origin span) -> In r table.
Proof. apply QuerySetFacts.range_scan_rows. Qed.

End PassageFacts.

(** C1.  Over a table whose primary keys are 1..N, when both references
    reach the parser (as [s] and [e]), the parser counts [origin] verses
    from Genesis 1:1 to the start, inclusive, and [span] verses in the
    passage, and the run [origin .. origin + span - 1] lies within 1..N,
    [passage] returns rows of the table whose primary keys are exactly
    [origin], [origin + 1], ..., [origin + span - 1] in this order: an
    ascending contiguous run of [span] verses that starts at [origin]. *)
Theorem passage_contiguous_run (bible : BibleModule)
  (translation : option string) (table : QuerySet.t)
  (start_reference : string) (end_reference : option string)
  (s e : string) (origin span : Z) :
  contiguous_from_one table ->
  qualify translation start_reference = Ok s ->
  qualify translation (default_end start_reference end_reference) = Ok e ->
  Passage bible s e = Some span ->
  Passage bible (in_the_beginning translation) s = Some origin ->
  1 <= origin -> 0 <= span ->
  origin + span - 1 <= Z.of_nat (List.length table) ->
  exists verses,
    passage bible translation table start_reference end_reference = Ok verses
    /\ map pk verses = ordinals (Z.to_nat origin) (Z.to_nat span)
    /\ List.length verses = Z.to_nat span
    /\ Forall (fun v => In (fields v) table /\ v = load (fields v)) verses.
Proof.
  intros Hc Hs He Hspan Horigin Ho Hn Hfit.
  exists (QuerySet.evaluate (selected table origin span)).
  assert (Hids : map pk (QuerySet.evaluate (selected table origin span))
                 = ordinals (Z.to_nat origin) (Z.to_nat span)).
  { rewrite evaluate_pk, selected_ids by assumption.
    f_equal. lia. }
  split; [|split; [exact Hids|split]].
  - rewrite (passage_parsed bible translation table _ _ s e origin span)
      by assumption.
    assert ((origin <? 0) = false) as -> by (apply Z.ltb_ge; lia).
    assert ((span <? 0) = false) as -> by (apply Z.ltb_ge; lia).
    reflexivity.
  - rewrite <- (length_map pk), Hids. apply QuerySetFacts.ordinals_length.
  - apply Forall_forall. intros v Hv.
    unfold QuerySet.evaluate in Hv. apply in_map_iff in Hv as (r & <- & Hr).
    split; [|reflexivity]. simpl. eapply selected_in_table. exact Hr.
Qed.

Lemma passage_contiguous_run_witness :
  exists verses,
    passage Sample.bible (Some "KJV") Sample.kjv
      "Genesis 1:2" (Some "Genesis 1:4") = Ok verses
    /\ map pk verses = ordinals 2 3
    /\ List.length verses = 3%nat
    /\ Forall (fun v => In (fields v) Sample.kjv /\ v = load (fields v))
         verses.
Proof.
  apply (passage_contiguous_run Sample.bible (Some "KJV") Sample.kjv
           "Genesis 1:2" (Some "Genesis 1:4")
           "Genesis 1:2 KJV" "Genesis 1:4 KJV" 2 3).
  - apply GetFacts.contiguous_by_order. reflexivity.
  - reflexivity.
  - reflexivity.
  - reflexivity.
  - reflexivity.
  - lia.
  - lia.
  - simpl. lia.
Defined.

(** C3 (counterexample).  The table holds four verses; the parser counts
    three verses to the start and four in the passage, so the run 3..6
    goes past the table.  [passage] raises nothing: it returns the two
    verses that are stored. *)
Lemma passage_past_the_table_returns :
  Passage Sample.bible (in_the_beginning (Some "KJV")) "Genesis 1:3 KJV"
  = Some 3 /\
  Passage Sample.bible "Genesis 1:3 KJV" "Genesis 1:6 KJV" = Some 4 /\
  List.length Sample.kjv_short = 4%nat /\
  passage Sample.bible (Some "KJV") Sample.kjv_short
    "Genesis 1:3" (Some "Genesis 1:6")
  = Ok [load Sample.g3; load Sample.g4].
Proof.
  repeat split; reflexivity.
Qed.

(** C3 (as amended).  Over a table whose primary keys are 1..N, when the
    run [origin .. origin + span - 1] of [span >= 1] verses goes past N, [passage] raises nothing
    and returns the stored verses from [origin] on, in ascending order:
    the primary keys [origin], ..., N (none when [origin] is past N),
    fewer than [span] of them. *)
Theorem passage_truncated (bible : BibleModule)
  (translation : option string) (table : QuerySet.t)
  (start_reference : string) (end_reference : option string)
  (s e : string) (origin span : Z) :
  contiguous_from_one table ->
  qualify translation start_reference = Ok s ->
  qualify translation (default_end start_reference end_reference) = Ok e ->
  Passage bible s e = Some span ->
  Passage bible (in_the_beginning translation) s = Some origin ->
  1 <= origin -> 1 <= span ->
  Z.of_nat (List.length table) < origin + span - 1 ->
  exists verses,
    passage bible translation table start_reference end_reference = Ok verses
    /\ map pk verses
       = ordinals (Z.to_nat origin)
           (List.length table - (Z.to_nat origin - 1))
    /\ (List.length verses < Z.to_nat span)%nat.
Proof.
  intros Hc Hs He Hspan Horigin Ho Hn Hpast.
  exists (QuerySet.evaluate (selected table origin span)).
  assert (Hids : map pk (QuerySet.evaluate (selected table origin span))
                 = ordinals (Z.to_nat origin)
                     (List.length table - (Z.to_nat origin - 1))).
  { rewrite evaluate_pk, selected_ids by assumption.
    f_equal. lia. }
  split; [|split; [exact Hids|]].
  - rewrite (passage_parsed bible translation table _ _ s e origin span)
      by assumption.
    assert ((origin <? 0) = false) as -> by (apply Z.ltb_ge; lia).
    assert ((span <? 0) = false) as -> by (apply Z.ltb_ge; lia).
    reflexivity.
  - rewrite <- (length_map pk), Hids, QuerySetFacts.ordinals_length. lia.
Qed.

Lemma passage_truncated_witness :
  exists verses,
    passage Sample.bible (Some "KJV") Sample.kjv_short
      "Genesis 1:3" (Some "Genesis 1:6") = Ok verses
    /\ map pk verses = ordinals 3 2
    /\ (List.length verses < 4)%nat.
Proof.
  apply (passage_truncated Sample.bible (Some "KJV") Sample.kjv_short
           "Genesis 1:3" (Some "Genesis 1:6")
           "Genesis 1:3 KJV" "Genesis 1:6 KJV" 3 4).
  - apply GetFacts.contiguous_by_order. reflexivity.
  - reflexivity.
  - reflexivity.
  - reflexivity.
  - reflexivity.
  - lia.
  - lia.
  - simpl. lia.
Defined.

(** C5 (counterexample).  The parser accepts the pair and counts zero
    verses from Genesis 1:3 to Genesis 1:2; [passage] returns the empty
    list, and raises nothing. *)
Lemma passage_of_zero_length_returns :
  Passage Sample.bible "Genesis 1:3 KJV" "Genesis 1:2 KJV" = Some 0 /\
  passage Sample.bible (Some "KJV") Sample.kjv
    "Genesis 1:3" (Some "Genesis 1:2")
  = Ok [].
Proof.
  split; reflexivity.
Qed.

(** C5 (as amended).  When both references reach the parser and the parser
    accepts them with a count [span <= 0], [passage] never raises
    [InvalidReference]: it returns the empty list when [span] is zero (and
    the count to the start is not negative), and the builtin [len] raises
    [ValueError] on a negative count. *)
Theorem passage_nonpositive_length (bible : BibleModule)
  (translation : option string) (table : QuerySet.t)
  (start_reference : string) (end_reference : option string)
  (s e : string) (origin span : Z) :
  qualify translation start_reference = Ok s ->
  qualify translation (default_end start_reference end_reference) = Ok e ->
  Passage bible s e = Some span ->
  Passage bible (in_the_beginning translation) s = Some origin ->
  span <= 0 ->
  passage bible translation table start_reference end_reference
  = if (origin <? 0) || (span <? 0) then Raise ValueError else Ok [].
Proof.
  intros Hs He Hspan Horigin Hle.
  rewrite (passage_parsed bible translation table _ _ s e origin span)
    by assumption.
  destruct (origin <? 0); [reflexivity|]. cbn [orb].
  destruct (span <? 0) eqn:E; [reflexivity|].
  apply Z.ltb_ge in E. assert (span = 0) as -> by lia. reflexivity.
Qed.

Lemma passage_nonpositive_length_witness :
  passage Sample.bible (Some "KJV") Sample.kjv
    "Genesis 1:3" (Some "Genesis 1:1")
  = Raise ValueError.
Proof.
  apply (passage_nonpositive_length Sample.bible (Some "KJV") Sample.kjv
           "Genesis 1:3" (Some "Genesis 1:1")
           "Genesis 1:3 KJV" "Genesis 1:1 KJV" 3 (-1)).
  - reflexivity.
  - reflexivity.
  - reflexivity.
  - reflexivity.
  - lia.
Defined.

(** C6.  Over a fully populated table, for a reference that reaches the
    parser (as [q]), that the parser reads as one verse (book [b], chapter
    [c], verse [n]; a span of one from [q] to [q]) and whose count from
    Genesis 1:1 is the primary key under which the table stores that
    verse, [passage] with the reference as both ends, or with the end left
    out, returns the one-element list of the verse [verse] returns. *)
Theorem single_verse_passage (bible : BibleModule)
  (translation : option string) (table : QuerySet.t)
  (reference q : string) (b c n origin : Z) (r : Row) :
  fully_populated table ->
  qualify translation reference = Ok q ->
  Verse bible q = Some (b, c, n) ->
  Passage bible q q = Some 1 ->
  Passage bible (in_the_beginning translation) q = Some origin ->
  In r table -> id r = origin -> triple r = (b, c, n) ->
  verse bible translation table reference = Ok (load r)
  /\ passage bible translation table reference (Some reference)
     = Ok [load r]
  /\ passage bible translation table reference None = Ok [load r].
Proof.
  intros (Hc & Hu & _) Hq Hv Hone Horigin Hr Hid Htriple.
  assert (Hrange : 1 <= origin <= Z.of_nat (List.length table)).
  { apply (GetFacts.contiguous_ids table origin Hc). now exists r. }
  assert (Hsel : selected table origin 1 = [r]).
  { assert (Hids : map id (selected table origin 1) = [origin]).
    { rewrite selected_ids by (assumption || lia).
      replace (Nat.min (Z.to_nat 1)
                 (List.length table - (Z.to_nat origin - 1)))
        with 1%nat by lia.
      unfold ordinals. simpl. f_equal. lia. }
    destruct (selected table origin 1) as [|x [|y l]] eqn:E;
      try discriminate.
    injection Hids as Hx. f_equal.
    apply (GetFacts.key_inj Z id table).
    - now apply GetFacts.contiguous_NoDup.
    - apply (selected_in_table table origin 1). rewrite E. now left.
    - exact Hr.
    - congruence. }
  assert (Hpassage : forall end_reference,
             default_end reference end_reference = reference ->
             passage bible translation table reference end_reference
             = Ok [load r]).
  { intros end_reference Hend.
    rewrite (passage_parsed bible translation table _ _ q q origin 1);
      try assumption; [|now rewrite Hend].
    assert ((origin <? 0) = false) as -> by (apply Z.ltb_ge; lia).
    cbn [orb Z.ltb Z.compare]. now rewrite Hsel. }
  split; [|split].
  - unfold verse. rewrite Hq. cbn [bind]. rewrite Hv. cbn [bind parsed].
    now apply GetFacts.get_by_triple.
  - apply Hpassage, QualifyFacts.default_end_same.
  - apply Hpassage. reflexivity.
Qed.

Lemma single_verse_passage_witness :
  verse Sample.bible (Some "KJV") Sample.kjv "Genesis 1:3"
  = Ok (load Sample.g3)
  /\ passage Sample.bible (Some "KJV") Sample.kjv
       "Genesis 1:3" (Some "Genesis 1:3")
     = Ok [load Sample.g3]
  /\ passage Sample.bible (Some "KJV") Sample.kjv "Genesis 1:3" None
     = Ok [load Sample.g3].
Proof.
  apply (single_verse_passage Sample.bible (Some "KJV") Sample.kjv
           "Genesis 1:3" "Genesis 1:3 KJV" 1 1 3 3 Sample.g3).
  - split; [|split].
    + apply GetFacts.contiguous_by_order. reflexivity.
    + unfold unique_together. simpl.
      repeat (constructor; [simpl; intuition discriminate|]).
      constructor.
    + exists Sample.g1. simpl. auto.
  - reflexivity.
  - reflexivity.
  - reflexivity.
  - reflexivity.
  - simpl. auto 10.
  - reflexivity.
  - reflexivity.
Defined.

(** C10 (counterexample).  An empty end reference has fewer than three
    characters, and [passage] raises no [IndexError] on it: an empty end
    counts as left out and the start takes its place. *)
Lemma passage_empty_end_is_start :
  (String.length "" < 3)%nat /\
  Py.truthy (Some "KJV") = true /\
  passage Sample.bible (Some "KJV") Sample.kjv "Genesis 1:1" (Some "")
  = Ok [load Sample.g1].
Proof.
  repeat split. simpl. lia.
Qed.

(** C10 (as amended).  On a model whose translation code is set, whatever
    the parser and the table: [verse] on a reference of fewer than three
    characters raises [IndexError]; so does [passage] on such a start
    reference, whatever the end; and so does [passage] on an end reference
    of one or two characters, whatever the start. *)
Theorem short_reference_index_error (bible : BibleModule)
  (translation : option string) (table : QuerySet.t)
  (short short_end start_reference : string)
  (end_reference : option string) :
  Py.truthy translation = true ->
  (String.length short < 3)%nat ->
  (0 < String.length short_end < 3)%nat ->
  verse bible translation table short = Raise IndexError
  /\ passage bible translation table short end_reference = Raise IndexError
  /\ passage bible translation table start_reference (Some short_end)
     = Raise IndexError.
Proof.
  intros Ht Hshort Hend. split; [|split].
  - unfold verse. now rewrite QualifyFacts.qualify_short.
  - unfold passage. now rewrite QualifyFacts.qualify_short.
  - unfold passage.
    rewrite QualifyFacts.default_end_given
      by (destruct short_end; [simpl in Hend; lia | discriminate]).
    destruct (qualify translation start_reference) as [s|x] eqn:E.
    + cbn [bind]. rewrite QualifyFacts.qualify_short by (assumption || lia).
      reflexivity.
    + destruct (Nat.lt_ge_cases (String.length start_reference) 3) as [L|L].
      * rewrite QualifyFacts.qualify_short in E by assumption.
        now injection E as <-.
      * destruct (QualifyFacts.qualify_long translation start_reference L)
          as [q Hq].
        congruence.
Qed.

Lemma short_reference_index_error_witness :
  verse Sample.bible (Some "KJV") Sample.kjv "Jn" = Raise IndexError
  /\ passage Sample.bible (Some "KJV") Sample.kjv "Jn" (Some "Genesis 1:2")
     = Raise IndexError
  /\ passage Sample.bible (Some "KJV") Sample.kjv "Genesis 1:1" (Some "G2")
     = Raise IndexError.
Proof.
  apply (short_reference_index_error Sample.bible (Some "KJV") Sample.kjv
           "Jn" "G2" "Genesis 1:1" (Some "Genesis 1:2")).
  - reflexivity.
  - simpl. lia.
  - simpl. lia.
Defined.

(** ** Navigation *)

Section NavigationFacts.

Variable table : QuerySet.t.

(** Genesis 1:1 has no previous verse, and no lookup is made for it: the
    answer is the same over every table. *)
Lemma prev_verse_of_genesis (v : VerseText) :
  _prev_verse v = None -> triple (fields v) = (1, 1, 1) ->
  fst (prev_verse table v) = Ok None.
Proof.
  intros Hc [= Hb Hch Hv]. unfold prev_verse.
  rewrite Hc, Hb, Hch, Hv. reflexivity.
Qed.

(** A second read of a property answers from the attribute. *)
Lemma next_verse_memo (v : VerseText) (x : option VerseText) :
  fst (next_verse table v) = Ok x ->
  next_verse table (snd (next_verse table v))
  = (Ok x, snd (next_verse table v)).
Proof.
  unfold next_verse.
  destruct (_next_verse v) as [c|] eqn:E.
  - simpl. rewrite E. now intros [= ->].
  - destruct (QuerySet.get _ table) as [w|[]]; simpl; intros [= <-];
      reflexivity.
Qed.

Lemma prev_verse_memo (v : VerseText) (x : option VerseText) :
  fst (prev_verse table v) = Ok x ->
  prev_verse table (snd (prev_verse table v))
  = (Ok x, snd (prev_verse table v)).
Proof.
  unfold prev_verse.
  destruct (_prev_verse v) as [c|] eqn:E.
  - simpl. rewrite E. now intros [= ->].
  - destruct (_ && _).
    + simpl. now intros [= <-].
    + destruct (QuerySet.get _ table) as [w|x']; simpl; intros [= <-];
        reflexivity.
Qed.

(** In a fully populated table only the row with primary key 1 is
    Genesis 1:1. *)
Lemma genesis_only_first (r : Row) :
  fully_populated table -> In r table -> id r <> 1 ->
  (book_id r =? 1) && (chapter r =? 1) && (verse_no r =? 1) = false.
Proof.
  intros (_ & Hu & (g & Hg & Hid & Hgen)) Hr Hne.
  destruct (_ && _) eqn:E; [|reflexivity].
  rewrite !andb_true_iff, !Z.eqb_eq in E. destruct E as [[Hb Hc] Hv].
  exfalso. apply Hne.
  assert (r = g) as ->; [|exact Hid].
  apply (GetFacts.key_inj _ triple table); try assumption.
  rewrite Hgen. unfold triple. now rewrite Hb, Hc, Hv.
Qed.

End NavigationFacts.

(** C4 (the code departs from the claim).  The table of a translation of
    the New Testament alone starts with Matthew 1:1 under the primary key
    1.  That verse is not book 1, chapter 1, verse 1, so [prev_verse]
    looks up the primary key 0, finds nothing, and the exception
    [DoesNotExist] escapes: no [None] is returned and no attribute is set.
    [next_verse], on the last verse of the same table, catches the same
    exception and returns [None]. *)
Theorem prev_verse_raises_on_failed_lookup :
  prev_verse Sample.new_testament (load Sample.m1)
  = (Raise DoesNotExist, load Sample.m1)
  /\ fst (next_verse Sample.new_testament (load Sample.m2)) = Ok None.
Proof.
  split; reflexivity.
Qed.

(** C7.  In a fully populated table, for a verse [v] of the table other
    than the first one (primary key 1) whose [prev_verse] has not been
    read yet, [prev_verse] returns the stored verse [u] with the primary
    key before, and [next_verse] of [u] returns the stored verse with the
    row of [v]: a verse equal to [v] (same primary key, same columns). *)
Theorem next_of_prev (table : QuerySet.t) (v : VerseText) :
  fully_populated table ->
  In (fields v) table -> _prev_verse v = None -> pk v <> 1 ->
  exists u,
    fst (prev_verse table v) = Ok (Some u)
    /\ pk u = pk v - 1
    /\ fst (next_verse table u) = Ok (Some (load (fields v)))
    /\ model_eqb (load (fields v)) v = true.
Proof.
  intros Hf Hin Hcache Hne.
  pose proof Hf as (Hc & _ & _).
  assert (Hrange : 1 <= pk v <= Z.of_nat (List.length table)).
  { apply (GetFacts.contiguous_ids table (pk v) Hc). now exists (fields v). }
  destruct (proj2 (GetFacts.contiguous_ids table (pk v - 1) Hc))
    as (p & Hp & Hpid); [lia|].
  exists (load p). unfold prev_verse, next_verse.
  rewrite Hcache, (genesis_only_first table (fields v) Hf Hin Hne).
  rewrite (GetFacts.get_by_id table p (pk v - 1) Hc Hp Hpid).
  cbn [fst load _next_verse]. change (pk (load p)) with (id p).
  rewrite Hpid.
  replace (pk v - 1 + 1) with (pk v) by lia.
  rewrite (GetFacts.get_by_id table (fields v) (pk v) Hc Hin eq_refl).
  repeat split. unfold model_eqb. apply Z.eqb_refl.
Qed.

Lemma next_of_prev_witness :
  exists u,
    fst (prev_verse Sample.kjv (load Sample.g4)) = Ok (Some u)
    /\ pk u = pk (load Sample.g4) - 1
    /\ fst (next_verse Sample.kjv u) = Ok (Some (load Sample.g4))
    /\ model_eqb (load Sample.g4) (load Sample.g4) = true.
Proof.
  apply (next_of_prev Sample.kjv (load Sample.g4)).
  - split; [|split].
    + apply GetFacts.contiguous_by_order. reflexivity.
    + unfold unique_together. simpl.
      repeat (constructor; [simpl; intuition discriminate|]).
      constructor.
    + exists Sample.g1. simpl. auto.
  - simpl. auto.
  - reflexivity.
  - discriminate.
Defined.

(** ** The registry of versions *)

Section RegistryFacts.

Variable Model : Type.
Variable get_for_model : Model -> Z.

#[local] Abbreviation reg_one := (register_one Model get_for_model).
#[local] Abbreviation reg := (register_version Model get_for_model).
#[local] Abbreviation run := (run_calls Model get_for_model).

Lemma mem_In (k : Z) (l : list Z) : mem k l = true <-> In k l.
Proof.
  unfold mem. rewrite existsb_exists. split.
  - intros (x & Hx & E). apply Z.eqb_eq in E. now subst.
  - intros H. exists k. split; [exact H | apply Z.eqb_refl].
Qed.

Lemma register_one_keeps (l : list Z) (v : Model) (k : Z) :
  In k l -> In k (reg_one l v).
Proof.
  intros H. unfold register_one. destruct (negb _); [|exact H].
  apply in_or_app. now left.
Qed.

Lemma register_one_adds (l : list Z) (v : Model) :
  In (get_for_model v) (reg_one l v).
Proof.
  unfold register_one. destruct (mem _ l) eqn:E; simpl.
  - now apply mem_In.
  - apply in_or_app. right. now left.
Qed.

Lemma register_one_present (l : list Z) (v : Model) :
  In (get_for_model v) l -> reg_one l v = l.
Proof.
  intros H. unfold register_one. apply mem_In in H. now rewrite H.
Qed.

Lemma register_one_NoDup (l : list Z) (v : Model) :
  NoDup l -> NoDup (reg_one l v).
Proof.
  intros H. unfold register_one. destruct (mem _ l) eqn:E; simpl; [exact H|].
  apply NoDup_app; [exact H | repeat constructor; auto |].
  intros x Hx [<-|[]]. apply mem_In in Hx. congruence.
Qed.

Lemma fold_register_keeps (vs : list Model) :
  forall l k, In k l -> In k (fold_left reg_one vs l).
Proof.
  induction vs as [|v vs IH]; simpl; intros l k H; [exact H|].
  apply IH, register_one_keeps, H.
Qed.

Lemma fold_register_adds (vs : list Model) :
  forall l v, In v vs -> In (get_for_model v) (fold_left reg_one vs l).
Proof.
  induction vs as [|a vs IH]; simpl; intros l v H; [contradiction|].
  destruct H as [->|H].
  - apply fold_register_keeps, register_one_adds.
  - now apply IH.
Qed.

Lemma fold_register_NoDup (vs : list Model) :
  forall l, NoDup l -> NoDup (fold_left reg_one vs l).
Proof.
  induction vs as [|v vs IH]; simpl; intros l H; [exact H|].
  apply IH, register_one_NoDup, H.
Qed.

Lemma register_version_entries (a : versions_attr) (vs : list Model) :
  entries (reg a vs) = fold_left reg_one vs (entries a).
Proof. destruct a; reflexivity. Qed.

(** A sequence of calls registers what one call with all the arguments
    registers. *)
Lemma fold_calls_entries (calls : list (list Model)) :
  forall a, entries (fold_left reg calls a)
            = fold_left reg_one (List.concat calls) (entries a).
Proof.
  induction calls as [|c calls IH]; simpl; intros a; [reflexivity|].
  rewrite IH, register_version_entries. now rewrite fold_left_app.
Qed.

(** After a call the class has the attribute. *)
Lemma fold_calls_attr (calls : list (list Model)) :
  forall a, calls <> [] \/ a <> None ->
    fold_left reg calls a
    = Some (entries (fold_left reg calls a)).
Proof.
  induction calls as [|c calls IH]; simpl; intros a H.
  - destruct a; [reflexivity | destruct H; congruence].
  - apply IH. right. discriminate.
Qed.

(** C8.  After any sequence of calls of [reg] in which
    [version] was registered (once or many times, alone or among others),
    the registry has no duplicate, holds exactly one entry for [version],
    and registering [version] again leaves it as it is. *)
Theorem register_version_idempotent (calls : list (list Model))
  (version : Model) :
  In version (List.concat calls) ->
  NoDup (entries (run calls))
  /\ count_occ Z.eq_dec (entries (run calls)) (get_for_model version)
     = 1%nat
  /\ reg (run calls) [version] = run calls.
Proof.
  intros Hin. unfold run_calls.
  assert (Hnd : NoDup (entries (fold_left reg calls None))).
  { rewrite fold_calls_entries. apply fold_register_NoDup. constructor. }
  assert (Hmem : In (get_for_model version)
                   (entries (fold_left reg calls None))).
  { rewrite fold_calls_entries. now apply fold_register_adds. }
  split; [exact Hnd | split].
  - now apply NoDup_count_occ'.
  - rewrite (fold_calls_attr calls None) at 2
      by (left; intros ->; contradiction).
    unfold register_version at 1.
    rewrite (fold_calls_attr calls None) at 1
      by (left; intros ->; contradiction).
    simpl. now rewrite register_one_present.
Qed.

End RegistryFacts.

Lemma register_version_idempotent_witness :
  NoDup (entries (run_calls string Sample.content_type Sample.calls))
  /\ count_occ Z.eq_dec
       (entries (run_calls string Sample.content_type Sample.calls))
       (Sample.content_type "KJV") = 1%nat
  /\ register_version string Sample.content_type
       (run_calls string Sample.content_type Sample.calls) ["KJV"]
     = run_calls string Sample.content_type Sample.calls.
Proof.
  apply (register_version_idempotent string Sample.content_type
           Sample.calls "KJV").
  simpl. auto.
Defined.

(** * Further properties of the manager *)

(** ** The qualifier test *)

Lemma append_length (a b : string) :
  String.length (a ++ b) = (String.length a + String.length b)%nat.
Proof. induction a as [|c a IH]; simpl; [reflexivity | now rewrite IH]. Qed.

(** A translation code that is not exactly one character long is appended
    to every reference of three characters or more, whatever the reference
    ends with: the comparison of [reference[-3]] with the code cannot
    succeed. *)
Theorem qualify_appends_long_codes (t reference : string) :
  String.length t <> 1%nat -> t <> EmptyString ->
  (3 <= String.length reference)%nat ->
  qualify (Some t) reference = Ok (reference ++ " " ++ t)
  /\ appended (Some t) reference = Ok true.
Proof.
  intros Ht Hne Hlen.
  pose proof (QualifyFacts.qualify_always_appends t reference Ht Hne Hlen)
    as Hq.
  split; [exact Hq|].
  unfold appended. rewrite Hq. cbn [bind]. do 2 f_equal.
  apply negb_true_iff, String.eqb_neq. intros E.
  apply (f_equal String.length) in E.
  rewrite !append_length in E. simpl in E. lia.
Qed.

Lemma qualify_appends_long_codes_witness :
  qualify (Some "NKJV") "Mark 1:1 NKJV" = Ok ("Mark 1:1 NKJV" ++ " " ++ "NKJV")
  /\ appended (Some "NKJV") "Mark 1:1 NKJV" = Ok true.
Proof.
  apply (qualify_appends_long_codes "NKJV" "Mark 1:1 NKJV").
  - simpl. lia.
  - discriminate.
  - simpl. lia.
Defined.

(** With a code [c] of one character the test does discriminate: the
    reference is left alone exactly when its third character from the end
    is [c], and gets the code appended otherwise. *)
Theorem qualify_one_character_code (c x : ascii) (reference : string) :
  String.get (String.length reference - 3) reference = Some x ->
  (3 <= String.length reference)%nat ->
  qualify (Some (String c EmptyString)) reference
  = if Ascii.eqb x c then Ok reference
    else Ok (reference ++ " " ++ String c EmptyString).
Proof.
  intros Hx Hlen. unfold qualify, Py.index_from_end.
  cbn [Py.truthy].
  assert ((String.length reference <? 3)%nat = false) as ->
    by (apply Nat.ltb_ge; lia).
  rewrite Hx. cbn [bind String.eqb].
  destruct (Ascii.eqb x c); reflexivity.
Qed.

Lemma qualify_one_character_code_witness :
  qualify (Some "K") "John 3:16 KJV" = Ok "John 3:16 KJV"
  /\ qualify (Some "K") "John 3:16" = Ok "John 3:16 K".
Proof.
  split.
  - apply (qualify_one_character_code "K" "K" "John 3:16 KJV").
    + reflexivity.
    + simpl. lia.
  - apply (qualify_one_character_code "K" ":" "John 3:16").
    + reflexivity.
    + simpl. lia.
Defined.

(** ** [verse]: what it returns and how it fails *)

Module VerseFacts.
Import QuerySet.

Lemma filter_perm (p : Row -> bool) (l l' : t) :
  Permutation l l' -> Permutation (filter p l) (filter p l').
Proof.
  induction 1 as [|x l l' _ IH|x y l|l l' l'' _ IH1 _ IH2]; simpl.
  - constructor.
  - destruct (p x); [now constructor | exact IH].
  - destruct (p x), (p y); try apply Permutation_refl. apply perm_swap.
  - eapply perm_trans; eassumption.
Qed.

(** A lookup does not depend on the order of the rows. *)
Lemma get_perm (p : Row -> bool) (l l' : t) :
  Permutation l l' -> get p l = get p l'.
Proof.
  intros H. apply (filter_perm p) in H. unfold get.
  destruct (filter p l) as [|a [|b m]].
  - apply Permutation_nil in H. now rewrite H.
  - apply Permutation_length_1_inv in H. now rewrite H.
  - pose proof (Permutation_length H) as L.
    destruct (filter p l') as [|a' [|b' m']]; simpl in L;
      try discriminate. reflexivity.
Qed.

(** What a successful lookup returns. *)
Lemma get_ok (p : Row -> bool) (l : t) (v : VerseText) :
  get p l = Ok v ->
  exists r, v = load r /\ In r l /\ p r = true /\ filter p l = [r].
Proof.
  unfold get. destruct (filter p l) as [|a [|b m]] eqn:E; try discriminate.
  intros [= <-]. exists a. repeat split.
  - apply (proj1 (filter_In p a l)). rewrite E. now left.
  - apply (proj1 (filter_In p a l)). rewrite E. now left.
Qed.

End VerseFacts.

(** Whatever the table holds, a verse that [verse] returns is a stored
    row, freshly loaded, whose book, chapter and verse are the ones the
    parser read in the qualified reference: [verse] never answers with
    another verse than the one asked for. *)
Theorem verse_sound (bible : BibleModule) (translation : option string)
  (table : QuerySet.t) (reference : string) (v : VerseText) :
  verse bible translation table reference = Ok v ->
  exists q,
    qualify translation reference = Ok q
    /\ Verse bible q = Some (triple (fields v))
    /\ In (fields v) table
    /\ v = load (fields v).
Proof.
  unfold verse. intros H.
  destruct (qualify translation reference) as [q|] eqn:Hq; [|discriminate].
  cbn [bind] in H.
  destruct (Verse bible q) as [[[b c] n]|] eqn:Hv; [|discriminate].
  cbn [bind parsed] in H.
  apply VerseFacts.get_ok in H as (r & -> & Hr & Hp & _).
  rewrite !andb_true_iff, !Z.eqb_eq in Hp. destruct Hp as [[<- <-] <-].
  exists q. repeat split; assumption.
Qed.

Lemma verse_sound_witness :
  exists q,
    qualify (Some "KJV") "Genesis 1:5" = Ok q
    /\ Verse Sample.bible q = Some (triple (fields (load Sample.g5)))
    /\ In (fields (load Sample.g5)) Sample.kjv
    /\ load Sample.g5 = load (fields (load Sample.g5)).
Proof.
  apply (verse_sound Sample.bible (Some "KJV") Sample.kjv "Genesis 1:5"
           (load Sample.g5)).
  reflexivity.
Defined.

(** Over a table that keeps [unique_together], the outcome of [verse] on a
    reference that reaches the parser (as [q]) is settled by the parser and
    the table: [InvalidReference] when the parser rejects [q]; the stored
    row with the parsed book, chapter and verse when there is one;
    [DoesNotExist] when there is none.  [MultipleObjectsReturned] cannot
    occur. *)
Theorem verse_outcome (bible : BibleModule) (translation : option string)
  (table : QuerySet.t) (reference q : string) :
  unique_together table ->
  qualify translation reference = Ok q ->
  match Verse bible q with
  | None => verse bible translation table reference = Raise InvalidReference
  | Some bcn =>
      (exists r, In r table /\ triple r = bcn
                 /\ verse bible translation table reference = Ok (load r))
      \/ ((forall r, In r table -> triple r <> bcn)
          /\ verse bible translation table reference = Raise DoesNotExist)
  end.
Proof.
  intros Hu Hq.
  destruct (Verse bible q) as [[[b c] n]|] eqn:Hv.
  - destruct (in_dec (fun x y : Z * Z * Z =>
                        ltac:(decide equality; try apply Z.eq_dec;
                              decide equality; apply Z.eq_dec))
                (b, c, n) (map triple table)) as [Hin|Hnot].
    + left. apply in_map_iff in Hin as (r & Ht & Hr).
      exists r. repeat split; try assumption.
      unfold verse. rewrite Hq. cbn [bind]. rewrite Hv. cbn [bind parsed].
      now apply GetFacts.get_by_triple.
    + right.
      assert (Hnone : forall r, In r table -> triple r <> (b, c, n)).
      { intros r Hr E. apply Hnot. rewrite <- E. now apply in_map. }
      split; [exact Hnone|].
      unfold verse. rewrite Hq. cbn [bind]. rewrite Hv. cbn [bind parsed].
      apply GetFacts.get_missing. intros r Hr.
      specialize (Hnone r Hr). unfold triple in Hnone.
      destruct (book_id r =? b) eqn:Eb; [|reflexivity].
      destruct (chapter r =? c) eqn:Ec; [|reflexivity].
      destruct (verse_no r =? n) eqn:En; [|reflexivity].
      apply Z.eqb_eq in Eb, Ec, En. subst. now contradiction Hnone.
  - unfold verse. rewrite Hq. cbn [bind]. rewrite Hv. reflexivity.
Qed.

Lemma verse_outcome_witness :
  verse Sample.bible (Some "KJV") Sample.kjv "Exodus 1:1"
  = Raise InvalidReference.
Proof.
  apply (verse_outcome Sample.bible (Some "KJV") Sample.kjv
           "Exodus 1:1" "Exodus 1:1 KJV").
  - unfold unique_together. simpl.
    repeat (constructor; [simpl; intuition discriminate|]).
    constructor.
  - reflexivity.
Defined.

(** [verse] does not depend on the order in which the table stores its
    rows. *)
Theorem verse_storage_order (bible : BibleModule)
  (translation : option string) (table table' : QuerySet.t)
  (reference : string) :
  Permutation table table' ->
  verse bible translation table reference
  = verse bible translation table' reference.
Proof.
  intros H. unfold verse.
  destruct (qualify translation reference) as [q|]; [|reflexivity].
  cbn [bind].
  destruct (Verse bible q) as [[[b c] n]|]; [|reflexivity].
  cbn [bind parsed]. now apply VerseFacts.get_perm.
Qed.

Lemma verse_storage_order_witness :
  verse Sample.bible (Some "KJV") (QuerySet.order_by_id Sample.kjv)
    "Genesis 1:4"
  = verse Sample.bible (Some "KJV") Sample.kjv "Genesis 1:4".
Proof.
  apply (verse_storage_order Sample.bible (Some "KJV")
           (QuerySet.order_by_id Sample.kjv) Sample.kjv "Genesis 1:4").
  apply QuerySetFacts.order_by_id_perm.
Defined.

(** ** [passage]: bounds, failures and storage order *)

Module PassageOrder.
Import QuerySet.

Lemma filter_sorted (p : Row -> bool) (l : t) :
  StronglySorted id_le l -> StronglySorted id_le (filter p l).
Proof.
  induction 1 as [|x l Hs IH Hx]; simpl; [constructor|].
  destruct (p x); [|exact IH].
  constructor; [exact IH|].
  apply Forall_forall. intros y Hy. apply filter_In in Hy as [Hy _].
  rewrite Forall_forall in Hx. now apply Hx.
Qed.

Lemma slice_sorted (n : nat) (l : t) :
  StronglySorted id_le l -> StronglySorted id_le (slice_to n l).
Proof.
  unfold slice_to. intros H. revert n.
  induction H as [|x l Hs IH Hx]; intros [|n]; simpl; try constructor.
  - apply IH.
  - apply Forall_forall. intros y Hy.
    apply (QuerySetFacts.in_slice_to n l y) in Hy.
    rewrite Forall_forall in Hx. now apply Hx.
Qed.

(** Rows with distinct primary keys have one ascending arrangement. *)
Lemma sorted_rows_unique (l1 : t) :
  forall l2, StronglySorted id_le l1 -> StronglySorted id_le l2 ->
             NoDup (map id l1) -> Permutation l1 l2 -> l1 = l2.
Proof.
  induction l1 as [|a l1 IH]; intros l2 H1 H2 Hnd HP.
  - apply Permutation_nil in HP. now subst.
  - destruct l2 as [|b l2].
    + apply Permutation_sym, Permutation_nil in HP. discriminate.
    + pose proof H1 as H1'. pose proof H2 as H2'.
      apply StronglySorted_inv in H1' as [H1t Ha].
      apply StronglySorted_inv in H2' as [H2t Hb].
      assert (In a (b :: l2)) as Ia
        by (eapply Permutation_in; [exact HP | now left]).
      assert (In b (a :: l1)) as Ib
        by (eapply Permutation_in;
            [apply Permutation_sym; exact HP | now left]).
      assert (a = b) as ->.
      { apply (GetFacts.key_inj Z id (a :: l1)); try assumption;
          [now left|].
        destruct Ia as [->|Ia]; [reflexivity|].
        destruct Ib as [->|Ib]; [reflexivity|].
        rewrite Forall_forall in Ha, Hb.
        specialize (Ha _ Ib). specialize (Hb _ Ia).
        unfold id_le in *. lia. }
      f_equal. apply IH; try assumption.
      * now inversion Hnd.
      * eapply Permutation_cons_inv; exact HP.
Qed.

Lemma order_by_id_perm_eq (l l' : t) :
  NoDup (map id l) -> Permutation l l' -> order_by_id l = order_by_id l'.
Proof.
  intros Hnd HP. apply sorted_rows_unique.
  - apply QuerySetFacts.order_by_id_sorted.
  - apply QuerySetFacts.order_by_id_sorted.
  - eapply Permutation_NoDup; [|exact Hnd].
    apply Permutation_map, Permutation_sym, QuerySetFacts.order_by_id_perm.
  - eapply perm_trans; [apply QuerySetFacts.order_by_id_perm|].
    eapply perm_trans; [exact HP|].
    apply Permutation_sym, QuerySetFacts.order_by_id_perm.
Qed.

End PassageOrder.

(** When primary keys are unique, [passage] does not depend on the order
    in which the table stores its rows: [order_by('id')] fixes the order
    of the result. *)
Theorem passage_storage_order (bible : BibleModule)
  (translation : option string) (table table' : QuerySet.t)
  (start_reference : string) (end_reference : option string) :
  NoDup (map id table) -> Permutation table table' ->
  passage bible translation table start_reference end_reference
  = passage bible translation table' start_reference end_reference.
Proof.
  intros Hnd HP. unfold passage.
  now rewrite (PassageOrder.order_by_id_perm_eq table table' Hnd HP).
Qed.

Lemma passage_storage_order_witness :
  passage Sample.bible (Some "KJV") Sample.kjv
    "Genesis 1:2" (Some "Genesis 1:5")
  = passage Sample.bible (Some "KJV") (QuerySet.order_by_id Sample.kjv)
      "Genesis 1:2" (Some "Genesis 1:5").
Proof.
  apply (passage_storage_order Sample.bible (Some "KJV") Sample.kjv
           (QuerySet.order_by_id Sample.kjv)
           "Genesis 1:2" (Some "Genesis 1:5")).
  - simpl. repeat (constructor; [simpl; intuition discriminate|]).
    constructor.
  - apply Permutation_sym, QuerySetFacts.order_by_id_perm.
Defined.

(** Over any table, with or without gaps: when the parser counts [origin]
    verses to the start and [span] verses in the passage and [passage]
    returns, the verses returned are stored rows, freshly loaded, in
    ascending order of primary key, none with a primary key below
    [origin], and at most [span] of them. *)
Theorem passage_bounds (bible : BibleModule)
  (translation : option string) (table : QuerySet.t)
  (start_reference : string) (end_reference : option string)
  (s e : string) (origin span : Z) (verses : list VerseText) :
  qualify translation start_reference = Ok s ->
  qualify translation (default_end start_reference end_reference) = Ok e ->
  Passage bible s e = Some span ->
  Passage bible (in_the_beginning translation) s = Some origin ->
  passage bible translation table start_reference end_reference = Ok verses ->
  StronglySorted Z.le (map pk verses)
  /\ Forall (fun v => origin <= pk v /\ In (fields v) table
                      /\ v = load (fields v)) verses
  /\ Z.of_nat (List.length verses) <= span.
Proof.
  intros Hs He Hspan Horigin Hres.
  rewrite (passage_parsed bible translation table _ _ s e origin span)
    in Hres by assumption.
  destruct (origin <? 0) eqn:Eo; [discriminate|].
  destruct (span <? 0) eqn:En; [discriminate|].
  apply Z.ltb_ge in Eo, En. cbn [orb] in Hres. injection Hres as <-.
  split; [|split].
  - rewrite evaluate_pk. apply QuerySetFacts.sorted_ids.
    apply PassageOrder.slice_sorted, PassageOrder.filter_sorted.
    apply QuerySetFacts.order_by_id_sorted.
  - apply Forall_forall. intros v Hv.
    unfold QuerySet.evaluate in Hv. apply in_map_iff in Hv as (r & <- & Hr).
    split; [|split; [|reflexivity]].
    + apply QuerySetFacts.in_slice_to in Hr.
      apply filter_In in Hr as [_ Hr]. apply Z.leb_le in Hr.
      change (pk (load r)) with (id r). lia.
    + simpl. eapply selected_in_table. exact Hr.
  - unfold QuerySet.evaluate, selected, QuerySet.slice_to.
    rewrite length_map, length_firstn. lia.
Qed.

Lemma passage_bounds_witness :
  StronglySorted Z.le (map pk [load Sample.g3; load Sample.g4])
  /\ Forall (fun v => 3 <= pk v /\ In (fields v) Sample.kjv_short
                      /\ v = load (fields v))
       [load Sample.g3; load Sample.g4]
  /\ Z.of_nat (List.length [load Sample.g3; load Sample.g4]) <= 4.
Proof.
  apply (passage_bounds Sample.bible (Some "KJV") Sample.kjv_short
           "Genesis 1:3" (Some "Genesis 1:6")
           "Genesis 1:3 KJV" "Genesis 1:6 KJV" 3 4
           [load Sample.g3; load Sample.g4]); reflexivity.
Defined.

(** Once both references have passed the qualifier test, [passage] raises
    [InvalidReference] exactly when the parser rejects the passage from
    start to end or the passage from Genesis 1:1 to the start; the table
    plays no part in it. *)
Theorem passage_invalid_reference (bible : BibleModule)
  (translation : option string) (table : QuerySet.t)
  (start_reference : string) (end_reference : option string)
  (s e : string) :
  qualify translation start_reference = Ok s ->
  qualify translation (default_end start_reference end_reference) = Ok e ->
  passage bible translation table start_reference end_reference
  = Raise InvalidReference
  <-> Passage bible s e = None
      \/ Passage bible (in_the_beginning translation) s = None.
Proof.
  intros Hs He.
  destruct (Passage bible s e) as [span|] eqn:Hspan.
  - destruct (Passage bible (in_the_beginning translation) s)
      as [origin|] eqn:Horigin.
    + rewrite (passage_parsed bible translation table _ _ s e origin span)
        by assumption.
      split; [|intros [H|H]; discriminate].
      destruct (_ || _); discriminate.
    + split; [now right|]. intros _. unfold passage.
      rewrite Hs. cbn [bind]. rewrite He. cbn [bind].
      rewrite Hspan. cbn [bind parsed]. now rewrite Horigin.
  - split; [now left|]. intros _. unfold passage.
    rewrite Hs. cbn [bind]. rewrite He. cbn [bind]. now rewrite Hspan.
Qed.

Lemma passage_invalid_reference_witness :
  passage Sample.bible (Some "KJV") Sample.kjv
    "Genesis 1:1" (Some "Exodus 1:1")
  = Raise InvalidReference
  <-> Passage Sample.bible "Genesis 1:1 KJV" "Exodus 1:1 KJV" = None
      \/ Passage Sample.bible (in_the_beginning (Some "KJV"))
           "Genesis 1:1 KJV" = None.
Proof.
  apply (passage_invalid_reference Sample.bible (Some "KJV") Sample.kjv
           "Genesis 1:1" (Some "Exodus 1:1")
           "Genesis 1:1 KJV" "Exodus 1:1 KJV"); reflexivity.
Defined.

(** * Further properties of the navigation *)

Module LookupFacts.
Import QuerySet.

(** With unique primary keys a lookup by primary key finds the row or
    finds nothing. *)
Lemma get_pk_cases (table : t) (k : Z) :
  NoDup (map id table) ->
  (exists r, In r table /\ id r = k
             /\ get (fun x => id x =? k) table = Ok (load r))
  \/ ((forall r, In r table -> id r <> k)
      /\ get (fun x => id x =? k) table = Raise DoesNotExist).
Proof.
  intros Hnd.
  destruct (in_dec Z.eq_dec k (map id table)) as [Hin|Hnot].
  - left. apply in_map_iff in Hin as (r & E & Hr). exists r.
    repeat split; try assumption.
    apply (GetFacts.get_key Z id); try assumption.
    intros x _. rewrite E. apply Z.eqb_eq.
  - right.
    assert (Hnone : forall r, In r table -> id r <> k).
    { intros r Hr E. apply Hnot. rewrite <- E. now apply in_map. }
    split; [exact Hnone|].
    apply GetFacts.get_missing. intros r Hr. apply Z.eqb_neq.
    now apply Hnone.
Qed.

End LookupFacts.

(** When primary keys are unique, [next_verse] never raises: a first read
    returns the stored verse with the next primary key, or [None] when
    there is no such row. *)
Theorem next_verse_outcome (table : QuerySet.t) (v : VerseText) :
  NoDup (map id table) -> _next_verse v = None ->
  (exists r, In r table /\ id r = pk v + 1
             /\ fst (next_verse table v) = Ok (Some (load r)))
  \/ ((forall r, In r table -> id r <> pk v + 1)
      /\ fst (next_verse table v) = Ok None).
Proof.
  intros Hnd Hcache. unfold next_verse. rewrite Hcache.
  destruct (LookupFacts.get_pk_cases table (pk v + 1) Hnd)
    as [(r & Hr & Hid & ->)|(Hnone & ->)].
  - left. exists r. repeat split; assumption.
  - right. split; [exact Hnone | reflexivity].
Qed.

Lemma next_verse_outcome_witness :
  (exists r, In r Sample.kjv_short /\ id r = pk (load Sample.g4) + 1
             /\ fst (next_verse Sample.kjv_short (load Sample.g4))
                = Ok (Some (load r)))
  \/ ((forall r, In r Sample.kjv_short -> id r <> pk (load Sample.g4) + 1)
      /\ fst (next_verse Sample.kjv_short (load Sample.g4)) = Ok None).
Proof.
  apply (next_verse_outcome Sample.kjv_short (load Sample.g4)).
  - simpl. repeat (constructor; [simpl; intuition discriminate|]).
    constructor.
  - reflexivity.
Defined.

(** Over a table whose primary keys are 1..N, a verse with the primary key
    N or more has no next verse: the first read of [next_verse] returns
    [None] and records it on the instance. *)
Theorem next_verse_of_last (table : QuerySet.t) (v : VerseText) :
  contiguous_from_one table -> _next_verse v = None ->
  Z.of_nat (List.length table) <= pk v ->
  next_verse table v
  = (Ok None, {| fields := fields v; _next_verse := Some None;
                 _prev_verse := _prev_verse v |}).
Proof.
  intros Hc Hcache Hlast. unfold next_verse. rewrite Hcache.
  rewrite GetFacts.get_missing; [reflexivity|].
  intros r Hr. apply Z.eqb_neq. intros E.
  assert (1 <= id r <= Z.of_nat (List.length table))
    by (apply (GetFacts.contiguous_ids table (id r) Hc); now exists r).
  lia.
Qed.

Lemma next_verse_of_last_witness :
  next_verse Sample.kjv (load Sample.g6)
  = (Ok None, {| fields := Sample.g6; _next_verse := Some None;
                 _prev_verse := None |}).
Proof.
  apply (next_verse_of_last Sample.kjv (load Sample.g6)).
  - apply GetFacts.contiguous_by_order. reflexivity.
  - reflexivity.
  - unfold pk. simpl. lia.
Defined.

(** In a fully populated table, for a stored verse [v] other than the last
    one whose [next_verse] has not been read yet, [next_verse] returns the
    stored verse [u] with the next primary key and [prev_verse] of [u]
    returns the stored verse with the row of [v]. *)
Theorem prev_of_next (table : QuerySet.t) (v : VerseText) :
  fully_populated table ->
  In (fields v) table -> _next_verse v = None ->
  pk v < Z.of_nat (List.length table) ->
  exists u,
    fst (next_verse table v) = Ok (Some u)
    /\ pk u = pk v + 1
    /\ fst (prev_verse table u) = Ok (Some (load (fields v))).
Proof.
  intros Hf Hin Hcache Hlt.
  pose proof Hf as (Hc & _ & _).
  assert (Hrange : 1 <= pk v <= Z.of_nat (List.length table)).
  { apply (GetFacts.contiguous_ids table (pk v) Hc). now exists (fields v). }
  destruct (proj2 (GetFacts.contiguous_ids table (pk v + 1) Hc))
    as (n & Hn & Hnid); [lia|].
  exists (load n). unfold next_verse, prev_verse.
  rewrite Hcache.
  rewrite (GetFacts.get_by_id table n (pk v + 1) Hc Hn Hnid).
  cbn [fst load _prev_verse fields]. change (pk (load n)) with (id n).
  rewrite (genesis_only_first table n Hf Hn) by lia.
  rewrite Hnid. replace (pk v + 1 - 1) with (pk v) by lia.
  rewrite (GetFacts.get_by_id table (fields v) (pk v) Hc Hin eq_refl).
  repeat split.
Qed.

Lemma prev_of_next_witness :
  exists u,
    fst (next_verse Sample.kjv (load Sample.g2)) = Ok (Some u)
    /\ pk u = pk (load Sample.g2) + 1
    /\ fst (prev_verse Sample.kjv u) = Ok (Some (load Sample.g2)).
Proof.
  apply (prev_of_next Sample.kjv (load Sample.g2)).
  - split; [|split].
    + apply GetFacts.contiguous_by_order. reflexivity.
    + unfold unique_together. simpl.
      repeat (constructor; [simpl; intuition discriminate|]).
      constructor.
    + exists Sample.g1. simpl. auto.
  - simpl. auto 10.
  - reflexivity.
  - unfold pk. simpl. lia.
Defined.

(** When primary keys are unique, a first read of [prev_verse] on a verse
    that is not book 1, chapter 1, verse 1 returns the stored verse with
    the primary key before; when no such row is stored the exception
    [DoesNotExist] reaches the caller and the instance is left as it was,
    no attribute set. *)
Theorem prev_verse_outcome (table : QuerySet.t) (v : VerseText) :
  NoDup (map id table) -> _prev_verse v = None ->
  triple (fields v) <> (1, 1, 1) ->
  (exists r, In r table /\ id r = pk v - 1
             /\ fst (prev_verse table v) = Ok (Some (load r)))
  \/ ((forall r, In r table -> id r <> pk v - 1)
      /\ prev_verse table v = (Raise DoesNotExist, v)).
Proof.
  intros Hnd Hcache Hgen. unfold prev_verse. rewrite Hcache.
  assert ((book_id (fields v) =? 1) && (chapter (fields v) =? 1)
          && (verse_no (fields v) =? 1) = false) as ->.
  { destruct (_ && _) eqn:E; [|reflexivity].
    rewrite !andb_true_iff, !Z.eqb_eq in E. destruct E as [[Hb Hc] Hv].
    exfalso. apply Hgen. unfold triple. now rewrite Hb, Hc, Hv. }
  destruct (LookupFacts.get_pk_cases table (pk v - 1) Hnd)
    as [(r & Hr & Hid & ->)|(Hnone & ->)].
  - left. exists r. repeat split; assumption.
  - right. split; [exact Hnone | reflexivity].
Qed.

Lemma prev_verse_outcome_witness :
  (exists r, In r Sample.new_testament /\ id r = pk (load Sample.m2) - 1
             /\ fst (prev_verse Sample.new_testament (load Sample.m2))
                = Ok (Some (load r)))
  \/ ((forall r, In r Sample.new_testament ->
                 id r <> pk (load Sample.m2) - 1)
      /\ prev_verse Sample.new_testament (load Sample.m2)
         = (Raise DoesNotExist, load Sample.m2)).
Proof.
  apply (prev_verse_outcome Sample.new_testament (load Sample.m2)).
  - simpl. repeat (constructor; [simpl; intuition discriminate|]).
    constructor.
  - reflexivity.
  - discriminate.
Defined.

(** Once [next_verse] has answered, every later read on the instance
    returns the same answer from the attribute and leaves the instance
    unchanged, whatever the table has become in between. *)
Theorem next_verse_cached (table table' : QuerySet.t) (v : VerseText)
  (x : option VerseText) :
  fst (next_verse table v) = Ok x ->
  next_verse table' (snd (next_verse table v))
  = (Ok x, snd (next_verse table v)).
Proof.
  unfold next_verse.
  destruct (_next_verse v) as [c|] eqn:E.
  - simpl. rewrite E. now intros [= ->].
  - destruct (QuerySet.get _ table) as [w|[]]; simpl; intros [= <-];
      reflexivity.
Qed.

Lemma next_verse_cached_witness :
  next_verse [] (snd (next_verse Sample.kjv (load Sample.g3)))
  = (Ok (Some (load Sample.g4)), snd (next_verse Sample.kjv (load Sample.g3))).
Proof.
  apply (next_verse_cached Sample.kjv [] (load Sample.g3)
           (Some (load Sample.g4))).
  reflexivity.
Defined.

(** The same for [prev_verse], when it answered without raising. *)
Theorem prev_verse_cached (table table' : QuerySet.t) (v : VerseText)
  (x : option VerseText) :
  fst (prev_verse table v) = Ok x ->
  prev_verse table' (snd (prev_verse table v))
  = (Ok x, snd (prev_verse table v)).
Proof.
  unfold prev_verse.
  destruct (_prev_verse v) as [c|] eqn:E.
  - simpl. rewrite E. now intros [= ->].
  - destruct (_ && _).
    + simpl. now intros [= <-].
    + destruct (QuerySet.get _ table) as [w|x']; simpl; intros [= <-];
        reflexivity.
Qed.

Lemma prev_verse_cached_witness :
  prev_verse [] (snd (prev_verse Sample.kjv (load Sample.g3)))
  = (Ok (Some (load Sample.g2)), snd (prev_verse Sample.kjv (load Sample.g3))).
Proof.
  apply (prev_verse_cached Sample.kjv [] (load Sample.g3)
           (Some (load Sample.g2))).
  reflexivity.
Defined.

(** The guard of [prev_verse] goes by book, chapter and verse, not by
    primary key: here Genesis 1:1 is stored under the primary key 2, after
    another row, and its first read of [prev_verse] still answers [None]. *)
Lemma prev_verse_of_genesis_witness :
  fst (prev_verse Sample.new_testament
         (load (Sample.row 2 1 1 1 "In the beginning")))
  = Ok None.
Proof.
  apply (prev_verse_of_genesis Sample.new_testament
           (load (Sample.row 2 1 1 1 "In the beginning"))); reflexivity.
Defined.

(** * Books *)

Module BookFacts.

Lemma book_get_found (books : list Books.Book) (k : Z) (b : Books.Book) :
  Books.get k books = Ok b -> In b books /\ Books.id b = k.
Proof.
  unfold Books.get.
  destruct (filter _ books) as [|a [|c m]] eqn:E; try discriminate.
  intros [= <-].
  assert (In a (filter (fun x => Books.id x =? k) books)) as H
    by (rewrite E; now left).
  apply filter_In in H as [H1 H2]. apply Z.eqb_eq in H2. now split.
Qed.

Lemma book_get_missing (books : list Books.Book) (k : Z) :
  (forall b, In b books -> Books.id b <> k) ->
  Books.get k books = Raise DoesNotExist.
Proof.
  intros H. unfold Books.get.
  assert (filter (fun x => Books.id x =? k) books = []) as ->;
    [|reflexivity].
  induction books as [|a l IH]; simpl; [reflexivity|].
  assert ((Books.id a =? k) = false) as ->
    by (apply Z.eqb_neq, H; now left).
  apply IH. intros b Hb. apply H. now right.
Qed.

Lemma book_get_unique (books : list Books.Book) (b : Books.Book) :
  NoDup (map Books.id books) -> In b books ->
  Books.get (Books.id b) books = Ok b.
Proof.
  intros Hnd Hb. unfold Books.get.
  assert (filter (fun x => Books.id x =? Books.id b) books = [b]) as ->;
    [|reflexivity].
  induction books as [|a l IH]; simpl; [contradiction|].
  inversion Hnd as [|? ? Hnotin Hnd']; subst.
  destruct Hb as [->|Hb].
  - rewrite Z.eqb_refl. f_equal.
    clear IH Hnd. induction l as [|c l IHl]; simpl; [reflexivity|].
    assert ((Books.id c =? Books.id b) = false) as ->.
    { apply Z.eqb_neq. intros E. apply Hnotin. left. exact E. }
    apply IHl.
    + intros H. apply Hnotin. now right.
    + now inversion Hnd'.
  - assert ((Books.id a =? Books.id b) = false) as ->.
    { apply Z.eqb_neq. intros E. apply Hnotin. rewrite E.
      now apply in_map. }
    now apply IH.
Qed.

End BookFacts.

(** For the books 1 to 65 the two properties are inverse to each other:
    [next_book_pk] of a verse is the book of the verses that follow, and
    [prev_book_pk] of a verse of that book leads back. *)
Theorem book_pk_round_trip (v w : VerseText) :
  1 <= book_id (fields v) <= 65 ->
  book_id (fields w) = book_id (fields v) + 1 ->
  next_book_pk v = Some (book_id (fields w))
  /\ prev_book_pk w = Some (book_id (fields v)).
Proof.
  intros Hv Hw. unfold next_book_pk, prev_book_pk. rewrite Hw.
  assert ((book_id (fields v) + 1 <=? 66) = true) as ->
    by (apply Z.leb_le; lia).
  assert ((0 <? book_id (fields v) + 1 - 1) = true) as ->
    by (apply Z.ltb_lt; lia).
  split; f_equal; lia.
Qed.

Lemma book_pk_round_trip_witness :
  next_book_pk (load Sample.g1) = Some (book_id (fields (load Sample2.e1)))
  /\ prev_book_pk (load Sample2.e1)
     = Some (book_id (fields (load Sample.g1))).
Proof.
  apply (book_pk_round_trip (load Sample.g1) (load Sample2.e1)).
  - simpl. lia.
  - reflexivity.
Defined.

(** Within the canon (books 1 to 66), [next_book_pk] is [None] exactly for
    book 66 and [prev_book_pk] exactly for book 1, and what they return
    otherwise is again a book of the canon. *)
Theorem book_pk_within_canon (v : VerseText) :
  1 <= book_id (fields v) <= 66 ->
  (next_book_pk v = None <-> book_id (fields v) = 66)
  /\ (prev_book_pk v = None <-> book_id (fields v) = 1)
  /\ (forall k, next_book_pk v = Some k \/ prev_book_pk v = Some k ->
                1 <= k <= 66).
Proof.
  intros H. unfold next_book_pk, prev_book_pk.
  destruct (Z.leb_spec (book_id (fields v) + 1) 66);
    destruct (Z.ltb_spec 0 (book_id (fields v) - 1));
    (split; [|split]);
    try (split; [discriminate || (intros _; lia) | intros; lia || reflexivity]);
    try (intros k [[= <-]|[= <-]]; lia);
    try (intros k [K|K]; try discriminate; injection K as <-; lia).
Qed.

Lemma book_pk_within_canon_witness :
  (next_book_pk (load Sample2.r_last) = None
   <-> book_id (fields (load Sample2.r_last)) = 66)
  /\ (prev_book_pk (load Sample2.r_last) = None
      <-> book_id (fields (load Sample2.r_last)) = 1)
  /\ (forall k, next_book_pk (load Sample2.r_last) = Some k
                \/ prev_book_pk (load Sample2.r_last) = Some k ->
                1 <= k <= 66).
Proof.
  apply (book_pk_within_canon (load Sample2.r_last)).
  simpl. lia.
Defined.

(** Over a table of books with unique primary keys that stores two
    adjacent books [k] and [k + 1] of the canon, [next_book] of a verse of
    book [k] is the stored book [k + 1] and [prev_book] of a verse of book
    [k + 1] is the stored book [k]. *)
Theorem adjacent_books (books : list Books.Book) (b b' : Books.Book)
  (v w : VerseText) :
  NoDup (map Books.id books) ->
  In b books -> In b' books ->
  1 <= Books.id b <= 65 -> Books.id b' = Books.id b + 1 ->
  book_id (fields v) = Books.id b -> book_id (fields w) = Books.id b' ->
  next_book books v = Ok (Some b') /\ prev_book books w = Ok (Some b).
Proof.
  intros Hnd Hb Hb' Hk Hnext Hv Hw.
  unfold next_book, prev_book, next_book_pk, prev_book_pk.
  rewrite Hv, Hw, Hnext.
  assert ((Books.id b + 1 <=? 66) = true) as -> by (apply Z.leb_le; lia).
  assert ((0 <? Books.id b + 1 - 1) = true) as -> by (apply Z.ltb_lt; lia).
  cbn [int_truthy].
  assert ((Books.id b + 1 =? 0) = false) as -> by (apply Z.eqb_neq; lia).
  assert ((Books.id b + 1 - 1 =? 0) = false) as -> by (apply Z.eqb_neq; lia).
  cbn [negb].
  rewrite <- Hnext, (BookFacts.book_get_unique books b' Hnd Hb').
  replace (Books.id b' - 1) with (Books.id b) by lia.
  rewrite (BookFacts.book_get_unique books b Hnd Hb).
  split; reflexivity.
Qed.

Lemma adjacent_books_witness :
  next_book Sample2.books (load Sample.g1) = Ok (Some Sample2.exodus)
  /\ prev_book Sample2.books (load Sample2.e1) = Ok (Some Sample2.genesis).
Proof.
  apply (adjacent_books Sample2.books Sample2.genesis Sample2.exodus
           (load Sample.g1) (load Sample2.e1)).
  - simpl. repeat (constructor; [simpl; intuition discriminate|]).
    constructor.
  - simpl. auto.
  - simpl. auto.
  - simpl. lia.
  - reflexivity.
  - reflexivity.
  - reflexivity.
Defined.

(** At the ends of the canon no lookup is made: whatever the table of
    books holds, [next_book] of a verse of book 66 (or beyond) and
    [prev_book] of a verse of book 1 (or below) are [None]. *)
Theorem book_navigation_ends (books : list Books.Book)
  (v_last v_first : VerseText) :
  66 <= book_id (fields v_last) -> book_id (fields v_first) <= 1 ->
  next_book books v_last = Ok None /\ prev_book books v_first = Ok None.
Proof.
  intros Hl Hf. unfold next_book, prev_book, next_book_pk, prev_book_pk.
  assert ((book_id (fields v_last) + 1 <=? 66) = false) as ->
    by (apply Z.leb_gt; lia).
  assert ((0 <? book_id (fields v_first) - 1) = false) as ->
    by (apply Z.ltb_ge; lia).
  split; reflexivity.
Qed.

Lemma book_navigation_ends_witness :
  next_book Sample2.books (load Sample2.r_last) = Ok None
  /\ prev_book Sample2.books (load Sample.g1) = Ok None.
Proof.
  apply (book_navigation_ends Sample2.books (load Sample2.r_last)
           (load Sample.g1)); simpl; lia.
Defined.

(** Inside the canon a book that the table does not store is an error,
    not [None]: when no book has the primary key [k], [next_book] of a
    verse of book [k - 1] and [prev_book] of a verse of book [k + 1] raise
    [DoesNotExist]. *)
Theorem book_navigation_missing (books : list Books.Book) (k : Z)
  (v w : VerseText) :
  (forall b, In b books -> Books.id b <> k) ->
  1 <= k <= 66 ->
  book_id (fields v) = k - 1 -> book_id (fields w) = k + 1 ->
  next_book books v = Raise DoesNotExist
  /\ prev_book books w = Raise DoesNotExist.
Proof.
  intros Hnone Hk Hv Hw.
  unfold next_book, prev_book, next_book_pk, prev_book_pk.
  rewrite Hv, Hw.
  replace (k - 1 + 1) with k by lia. replace (k + 1 - 1) with k by lia.
  assert ((k <=? 66) = true) as -> by (apply Z.leb_le; lia).
  assert ((0 <? k) = true) as -> by (apply Z.ltb_lt; lia).
  cbn [int_truthy].
  assert ((k =? 0) = false) as -> by (apply Z.eqb_neq; lia).
  cbn [negb]. rewrite (BookFacts.book_get_missing books k Hnone).
  split; reflexivity.
Qed.

Lemma book_navigation_missing_witness :
  next_book Sample2.books (load Sample2.e1) = Raise DoesNotExist
  /\ prev_book Sample2.books (load (Sample.row 3000 4 1 1 "Numbers"))
     = Raise DoesNotExist.
Proof.
  apply (book_navigation_missing Sample2.books 3 (load Sample2.e1)
           (load (Sample.row 3000 4 1 1 "Numbers"))).
  - intros b [<-|[<-|[<-|[]]]]; discriminate.
  - lia.
  - reflexivity.
  - reflexivity.
Defined.

(** * Permalinks *)

(** Within a table that keeps [unique_together], the arguments of the
    verse permalink identify the verse: two stored verses for which
    [get_absolute_url] returns the same value have the same row. *)
Theorem absolute_url_identifies_verse (translation : option string)
  (books : list Books.Book) (table : QuerySet.t) (v w : VerseText)
  (u : Permalink) :
  unique_together table ->
  In (fields v) table -> In (fields w) table ->
  get_absolute_url translation books v = Ok u ->
  get_absolute_url translation books w = Ok u ->
  fields v = fields w.
Proof.
  intros Hu Hv Hw Uv Uw. unfold get_absolute_url, book in Uv, Uw.
  destruct (Books.get (book_id (fields v)) books) as [bv|] eqn:Ev;
    [|discriminate].
  destruct (Books.get (book_id (fields w)) books) as [bw|] eqn:Ew;
    [|discriminate].
  apply BookFacts.book_get_found in Ev as [_ Ev], Ew as [_ Ew].
  cbn [bind] in Uv, Uw. rewrite <- Uv in Uw.
  injection Uw as Hb Hc Hn.
  apply (GetFacts.key_inj _ triple table); try assumption.
  unfold triple. rewrite <- Ev, <- Ew. congruence.
Qed.

Lemma absolute_url_identifies_verse_witness :
  fields (load Sample.g1) = fields (load Sample.g1).
Proof.
  apply (absolute_url_identifies_verse (Some "KJV") Sample2.books
           Sample.kjv (load Sample.g1) (load Sample.g1)
           ("bibletext_verse_detail", [],
            [ ("version", UrlCode (Some "KJV")); ("book_id", UrlInt 1);
              ("chapter", UrlInt 1); ("verse", UrlInt 1) ])).
  - unfold unique_together. simpl.
    repeat (constructor; [simpl; intuition discriminate|]).
    constructor.
  - simpl. auto.
  - simpl. auto.
  - reflexivity.
  - reflexivity.
Defined.

(** The chapter permalink is shared by the verses of a chapter and by no
    other verse: once [get_chapter_url] has returned [u] for [v], it
    returns [u] for [w] exactly when [w] has the book and the chapter of
    [v]. *)
Theorem chapter_url_shared (translation : option string)
  (books : list Books.Book) (v w : VerseText) (u : Permalink) :
  get_chapter_url translation books v = Ok u ->
  get_chapter_url translation books w = Ok u
  <-> book_id (fields w) = book_id (fields v)
      /\ chapter (fields w) = chapter (fields v).
Proof.
  intros Uv. unfold get_chapter_url, book in *.
  destruct (Books.get (book_id (fields v)) books) as [bv|] eqn:Ev;
    [|discriminate].
  cbn [bind] in Uv. split.
  - intros Uw.
    destruct (Books.get (book_id (fields w)) books) as [bw|] eqn:Ew;
      [|discriminate].
    apply BookFacts.book_get_found in Ev as [_ Ev], Ew as [_ Ew].
    cbn [bind] in Uw. rewrite <- Uv in Uw. injection Uw as Hb Hc.
    split; congruence.
  - intros [Hb Hc]. now rewrite Hb, Ev, Hc.
Qed.

Lemma chapter_url_shared_witness :
  get_chapter_url (Some "KJV") Sample2.books (load Sample.g2)
  = Ok ("bibletext_chapter_detail", [],
        [ ("version", UrlCode (Some "KJV")); ("book_id", UrlInt 1);
          ("chapter", UrlInt 1) ])
  <-> book_id (fields (load Sample.g2)) = book_id (fields (load Sample.g1))
      /\ chapter (fields (load Sample.g2)) = chapter (fields (load Sample.g1)).
Proof.
  apply (chapter_url_shared (Some "KJV") Sample2.books
           (load Sample.g1) (load Sample.g2)).
  reflexivity.
Defined.

(** Both permalinks read [self.book]: for a verse whose book the table of
    books does not store they raise [DoesNotExist]. *)
Theorem permalink_missing_book (translation : option string)
  (books : list Books.Book) (v : VerseText) :
  (forall b, In b books -> Books.id b <> book_id (fields v)) ->
  get_absolute_url translation books v = Raise DoesNotExist
  /\ get_chapter_url translation books v = Raise DoesNotExist.
Proof.
  intros H. unfold get_absolute_url, get_chapter_url, book.
  rewrite (BookFacts.book_get_missing books _ H). split; reflexivity.
Qed.

Lemma permalink_missing_book_witness :
  get_absolute_url (Some "KJV") Sample2.books (load Sample2.l1)
  = Raise DoesNotExist
  /\ get_chapter_url (Some "KJV") Sample2.books (load Sample2.l1)
     = Raise DoesNotExist.
Proof.
  apply (permalink_missing_book (Some "KJV") Sample2.books
           (load Sample2.l1)).
  intros b [<-|[<-|[<-|[]]]]; discriminate.
Defined.

(** * Further properties of the registry *)

Section RegistryMore.

Variable Model : Type.
Variable get_for_model : Model -> Z.

#[local] Abbreviation reg1 := (register_one Model get_for_model).
#[local] Abbreviation regv := (register_version Model get_for_model).

Lemma register_one_from (l : list Z) (v : Model) (k : Z) :
  In k (reg1 l v) -> In k l \/ k = get_for_model v.
Proof.
  unfold register_one. destruct (negb _); [|now left].
  intros H. apply in_app_or in H as [H|[<-|[]]]; auto.
Qed.

Lemma fold_register_from (vs : list Model) :
  forall l k, In k (fold_left reg1 vs l) ->
              In k l \/ In k (map get_for_model vs).
Proof.
  induction vs as [|v vs IH]; simpl; intros l k H; [now left|].
  apply IH in H as [H|H]; [|now right; right].
  apply register_one_from in H as [H| ->]; [now left | right; now left].
Qed.

Lemma fold_register_suffix (vs : list Model) :
  forall l, exists suffix,
    fold_left reg1 vs l = (l ++ suffix)%list
    /\ incl suffix (map get_for_model vs).
Proof.
  induction vs as [|v vs IH]; simpl; intros l.
  - exists []. split; [now rewrite app_nil_r | intros x []].
  - destruct (IH (reg1 l v)) as (s & E & Hs). rewrite E. clear E IH.
    unfold register_one.
    destruct (negb (mem (get_for_model v) l)).
    + exists (get_for_model v :: s). split.
      * now rewrite <- app_assoc.
      * intros x [<-|Hx]; [now left | right; now apply Hs].
    + exists s. split; [reflexivity|].
      intros x Hx. right. now apply Hs.
Qed.

(** After a call the registry holds what it held and the content types of
    the versions passed, and nothing else. *)
Theorem register_version_membership (a : versions_attr)
  (versions : list Model) (k : Z) :
  In k (entries (regv a versions))
  <-> In k (entries a) \/ In k (map get_for_model versions).
Proof.
  rewrite register_version_entries. split.
  - apply fold_register_from.
  - intros [H|H].
    + now apply fold_register_keeps.
    + apply in_map_iff in H as (v & <- & Hv).
      now apply fold_register_adds.
Qed.

(** A call only appends: the entries held before stay where they were, in
    their order, the new ones come after them, and a registry without
    duplicates stays without duplicates. *)
Theorem register_version_appends (a : versions_attr)
  (versions : list Model) :
  NoDup (entries a) ->
  exists suffix,
    entries (regv a versions) = (entries a ++ suffix)%list
    /\ incl suffix (map get_for_model versions)
    /\ NoDup (entries (regv a versions)).
Proof.
  intros Hnd. rewrite register_version_entries.
  destruct (fold_register_suffix versions (entries a)) as (s & E & Hs).
  exists s. repeat split; try assumption.
  now apply fold_register_NoDup.
Qed.

(** Registering in several calls or in one call with all the versions
    gives the same registry. *)
Theorem register_calls_as_one (a : versions_attr)
  (calls : list (list Model)) :
  entries (fold_left regv calls a)
  = entries (regv a (List.concat calls)).
Proof.
  rewrite fold_calls_entries, register_version_entries. reflexivity.
Qed.

End RegistryMore.

Lemma register_version_appends_witness :
  exists suffix,
    entries (register_version string Sample.content_type (Some [3; 5])
               ["NKJV"; "KJV"; "ESV"; "NKJV"])
    = (entries (Some [3; 5]) ++ suffix)%list
    /\ incl suffix (map Sample.content_type ["NKJV"; "KJV"; "ESV"; "NKJV"])
    /\ NoDup (entries (register_version string Sample.content_type
                         (Some [3; 5]) ["NKJV"; "KJV"; "ESV"; "NKJV"])).
Proof.
  apply (register_version_appends string Sample.content_type (Some [3; 5])
           ["NKJV"; "KJV"; "ESV"; "NKJV"]).
  simpl. repeat (constructor; [simpl; intuition discriminate|]).
  constructor.
Defined.
